(** * luigi: the scheduler proxy (luigi/rpc.py) and the task identity model

    A shallow embedding of [luigi/rpc.py]: the two fetchers, the
    [RemoteScheduler] constructor, the bounded retry loop of [_fetch], the
    JSON envelope of [_request] and the fourteen public operations.

    Effects are explicit.  Everything the proxy does to the outside world
    (a call of [self._fetcher.fetch], a [time.sleep], a log record) is
    appended to a trace of events, and the network is an oracle that answers
    the n-th transport call.  Python library functions that the module only
    calls ([json.dumps], [json.loads], [urljoin], [urlencode], [repr],
    [float]) are parameters of the development. *)

From Stdlib Require Import ZArith QArith Ascii String List Lia Bool.
From Equations Require Import Equations.
From stdpp Require Import gmap strings list pretty.
Close Scope Q_scope.
Open Scope Z_scope.

(** ** Python values *)

Set Warnings "-register-all".

Inductive PyVal : Type :=
| PyNone
| PyBool (b : bool)
| PyInt (z : Z)
| PyFloat (q : Q)        (* the number a binary64 denotes; only passed along *)
| PyStr (s : string)
| PyList (items : list PyVal)
| PyTuple (items : list PyVal)
| PyDict (items : list (string * PyVal)).   (* string keys, insertion order *)

(** Truth value testing, as [if x:] and [assert x] perform it. *)
Definition truthy (v : PyVal) : bool :=
  match v with
  | PyNone => false
  | PyBool b => b
  | PyInt z => negb (z =? 0)
  | PyFloat q => negb (Qnum q =? 0)
  | PyStr s => negb (String.eqb s EmptyString)
  | PyList items | PyTuple items => negb (Nat.eqb (length items) 0)
  | PyDict items => negb (Nat.eqb (length items) 0)
  end.

(** ** Exceptions *)

Inductive ExcClass : Type :=
| URLError                    (* urllib.error.URLError *)
| urllib_HTTPError            (* urllib.error.HTTPError, a URLError *)
| socket_timeout              (* socket.timeout *)
| socket_error                (* socket.error other than a timeout *)
| RequestException            (* requests.exceptions.RequestException *)
| requests_ConnectionError    (* subclasses of RequestException *)
| requests_Timeout
| requests_HTTPError
| ValueError
| KeyError
| TypeError
| AssertionError
| OtherException (name : string).

(** An exception object of a library or builtin class. *)
Record LibExc : Type := { exc_class : ExcClass; exc_args : string }.

(** [isinstance(e, URLError)], [isinstance(e, socket.timeout)] and
    [isinstance(e, RequestException)]: what the [except] clauses test. *)
Definition is_URLError (e : LibExc) : bool :=
  match exc_class e with URLError | urllib_HTTPError => true | _ => false end.

Definition is_socket_timeout (e : LibExc) : bool :=
  match exc_class e with socket_timeout => true | _ => false end.

Definition is_RequestException (e : LibExc) : bool :=
  match exc_class e with
  | RequestException | requests_ConnectionError
  | requests_Timeout | requests_HTTPError => true
  | _ => false
  end.

(** What can travel up the stack: a library exception as itself, or one of
    the two classes of the module.
    [[
    class RPCError(Exception):
        def __init__(self, message, sub_exception=None): ...
    class FetcherException(Exception):
        def __init__(self, original_exc): ...
    ]] *)
Inductive PyExc : Type :=
| LibraryError (e : LibExc)
| FetcherException (original_exc : LibExc)
| RPCError (message : string) (sub_exception : option LibExc).

Inductive PyResult (A : Type) : Type :=
| Ok (a : A)
| Raise (e : PyExc).
Arguments Ok {A} a.
Arguments Raise {A} e.

(** [if last_exception:] on [None] or on an exception object.  None of the
    exception classes involved defines [__bool__] or [__len__], so every
    exception object is true. *)
Definition exc_truthy (last_exception : option LibExc) : bool :=
  match last_exception with
  | None => false
  | Some _ => true
  end.

(** ** The outside world *)

(** The request body built by [_request]: a dict from str to str. *)
Definition Body : Type := list (string * string).

Inductive Event : Type :=
| EvFetch (full_url : string) (body : Body) (timeout : PyVal)
| EvSleep (seconds : Z)
| EvLogInfo (msg : string)
| EvLogException (msg : string) (arg : string).

Definition Trace : Type := list Event.

Definition is_fetch (ev : Event) : bool :=
  match ev with EvFetch _ _ _ => true | _ => false end.

Definition is_sleep (ev : Event) : bool :=
  match ev with EvSleep _ => true | _ => false end.

(** Number of calls of [self._fetcher.fetch] recorded in a trace. *)
Definition fetch_count (tr : Trace) : nat := length (List.filter is_fetch tr).

Definition sleep_count (tr : Trace) : nat := length (List.filter is_sleep tr).

(** What a call into a transport library does: it returns or it throws. *)
Inductive Outcome (A : Type) : Type :=
| Returns (a : A)
| Throws (e : LibExc).
Arguments Returns {A} a.
Arguments Throws {A} e.

(** A [requests] response, as far as [RequestsFetcher] looks at it. *)
Record Response : Type := { status_code : Z; text : string }.

(** The network.  The first argument is the number of transport calls made
    before this one, so that an answer may depend on the attempt.
    - [urlopen_read n url data timeout] is
      [urlopen(url, data, timeout).read().decode('utf-8')];
    - [session_get n url body timeout] is
      [session.get(url, data=body, timeout=timeout)]. *)
Record Network : Type := {
  urlopen_read : nat -> string -> string -> PyVal -> Outcome string;
  session_get : nat -> string -> Body -> PyVal -> Outcome Response
}.

(** [resp.raise_for_status()]: an HTTPError of [requests] for a 4xx or 5xx
    status. *)
Definition raise_for_status (resp : Response) : Outcome unit :=
  if (400 <=? status_code resp) && (status_code resp <? 600)
  then Throws {| exc_class := requests_HTTPError;
                 exc_args := pretty (status_code resp) |}
  else Returns tt.

(** ** Module flags

    [HAS_UNIX_SOCKETS] and [HAS_REQUESTS] are set when the module is
    imported, from which of the two imports succeed:
    [[
    try:
        import requests_unixsockets as requests
    except ImportError:
        HAS_UNIX_SOCKETS = False
        try:
            import requests
        except ImportError:
            HAS_REQUESTS = False
    ]] *)
Record Imports : Type := {
  can_import_requests_unixsockets : bool;
  can_import_requests : bool
}.

Definition HAS_UNIX_SOCKETS (im : Imports) : bool :=
  can_import_requests_unixsockets im.

Definition HAS_REQUESTS (im : Imports) : bool :=
  if can_import_requests_unixsockets im then true else can_import_requests im.

(** ** A state and error monad over the trace *)

Definition M (A : Type) : Type := Trace -> PyResult A * Trace.

Definition ret {A} (a : A) : M A := fun tr => (Ok a, tr).

Definition raise {A} (e : PyExc) : M A := fun tr => (Raise e, tr).

Definition bind {A B} (m : M A) (k : A -> M B) : M B :=
  fun tr =>
    match m tr with
    | (Ok a, tr') => k a tr'
    | (Raise e, tr') => (Raise e, tr')
    end.

Definition emit (ev : Event) : M unit := fun tr => (Ok tt, tr ++ [ev]).

Definition lift {A} (r : PyResult A) : M A := fun tr => (r, tr).

Notation "'do' x <- m ; k" := (bind m (fun x => k))
  (at level 10, x name, m at level 100, k at level 200).

(** The [assert] statement. *)
Definition assert_ (v : PyVal) : PyResult unit :=
  if truthy v then Ok tt
  else Raise (LibraryError {| exc_class := AssertionError; exc_args := EmptyString |}).

(** [value[key]] for a string key. *)
Fixpoint dict_get (items : list (string * PyVal)) (key : string) : option PyVal :=
  match items with
  | [] => None
  | (k, v) :: rest => if String.eqb k key then Some v else dict_get rest key
  end.

Definition getitem (value : PyVal) (key : string) : PyResult PyVal :=
  match value with
  | PyDict items =>
      match dict_get items key with
      | Some v => Ok v
      | None => Raise (LibraryError {| exc_class := KeyError; exc_args := key |})
      end
  | _ => Raise (LibraryError {| exc_class := TypeError; exc_args := key |})
  end.

(** [s.rstrip(chars)]: drop the longest suffix made of characters of
    [chars]. *)
Fixpoint char_in (c : ascii) (chars : string) : bool :=
  match chars with
  | EmptyString => false
  | String d rest => if Ascii.eqb c d then true else char_in c rest
  end.

Fixpoint rstrip (s chars : string) : string :=
  match s with
  | EmptyString => EmptyString
  | String c rest =>
      match rstrip rest chars with
      | EmptyString => if char_in c chars then EmptyString else String c EmptyString
      | kept => String c kept
      end
  end.

(** ** The module *)

(** A run of [n] slashes. *)
Fixpoint slashes (n : nat) : string :=
  match n with
  | O => EmptyString
  | S n' => String (ascii_of_nat 47) (slashes n')
  end.

(** Library functions the module calls, as an interface. *)
Class PyLib : Type := {
  json_dumps : PyVal -> string;           (* json.dumps *)
  json_loads : string -> option PyVal;    (* json.loads; None: ValueError *)
  urljoin : string -> string -> string;   (* urllib.parse.urljoin *)
  urlencode : Body -> string;             (* urlencode(body).encode('utf-8') *)
  repr : string -> string;                (* '%r' of a str *)
  float_of_str : string -> option Q       (* float(s); None: ValueError *)
}.

Section Rpc.

Context {lib : PyLib}.

(** The network the proxy talks to. *)
Variable net : Network.

(** *** Fetchers
    The body of each [try] is a definition of its own ([..._try]); the
    [except] clause is applied to what it does.
    [[
    class URLLibFetcher(object):
        def fetch(self, full_url, body, timeout):
            try:
                body = urlencode(body).encode('utf-8')
                return urlopen(full_url, body, timeout).read().decode('utf-8')
            except (URLError, socket.timeout) as e:
                raise FetcherException(e)
    ]] *)
Definition URLLibFetcher_try (n : nat) (full_url : string) (body : Body)
    (timeout : PyVal) : Outcome string :=
  urlopen_read net n full_url (urlencode body) timeout.

Definition URLLibFetcher_fetch (n : nat) (full_url : string) (body : Body)
    (timeout : PyVal) : PyResult string :=
  match URLLibFetcher_try n full_url body timeout with
  | Returns page => Ok page
  | Throws e =>
      if is_URLError e || is_socket_timeout e
      then Raise (FetcherException e)
      else Raise (LibraryError e)
  end.

(** [[
    class RequestsFetcher(object):
        def fetch(self, full_url, body, timeout):
            try:
                resp = self.session.get(full_url, data=body, timeout=timeout)
                resp.raise_for_status()
                return resp.text
            except (requests_exceptions.RequestException) as e:
                raise FetcherException(e)
    ]] *)
Definition RequestsFetcher_try (n : nat) (full_url : string) (body : Body)
    (timeout : PyVal) : Outcome string :=
  match session_get net n full_url body timeout with
  | Returns resp =>
      match raise_for_status resp with
      | Returns _ => Returns (text resp)
      | Throws e => Throws e
      end
  | Throws e => Throws e
  end.

Definition RequestsFetcher_fetch (n : nat) (full_url : string) (body : Body)
    (timeout : PyVal) : PyResult string :=
  match RequestsFetcher_try n full_url body timeout with
  | Returns page => Ok page
  | Throws e =>
      if is_RequestException e
      then Raise (FetcherException e)
      else Raise (LibraryError e)
  end.

Inductive Fetcher : Type := URLLibFetcher | RequestsFetcher.

(** [fetcher.fetch(full_url, body, timeout)], as the [n]-th transport
    call. *)
Definition fetch (fetcher : Fetcher) (n : nat) (full_url : string)
    (body : Body) (timeout : PyVal) : PyResult string :=
  match fetcher with
  | URLLibFetcher => URLLibFetcher_fetch n full_url body timeout
  | RequestsFetcher => RequestsFetcher_fetch n full_url body timeout
  end.

(** *** Configuration *)

(** Modelled from the spec: [configuration.get_config().getfloat(section,
    option, default)] of luigi/configuration.py, which is not part of the
    sources at hand.  The connect timeout is "configurable externally
    (default 10 seconds)": the entry of the configuration is read as a
    float when there is one, and the default is returned when there is
    none. *)
Definition getfloat (config : gmap (string * string) string)
    (section option : string) (default : PyVal) : PyResult PyVal :=
  match config !! (section, option) with
  | None => Ok default
  | Some raw =>
      match float_of_str raw with
      | Some q => Ok (PyFloat q)
      | None => Raise (LibraryError {| exc_class := ValueError; exc_args := raw |})
      end
  end.

(** *** RemoteScheduler *)

Record RemoteScheduler : Type := {
  _url : string;
  _connect_timeout : PyVal;
  _fetcher : Fetcher
}.

(** [[
    def __init__(self, url='http://localhost:8082/', connect_timeout=None):
        assert (
            not (url.startswith('http+unix://') and not HAS_UNIX_SOCKETS),
            'You need to install requests-unixsocket for Unix socket support.',
        )
        self._url = url.rstrip('/')
        config = configuration.get_config()
        if connect_timeout is None:
            connect_timeout = config.getfloat('core', 'rpc-connect-timeout', 10.0)
        self._connect_timeout = connect_timeout
        if HAS_REQUESTS:
            self._fetcher = RequestsFetcher(requests.Session())
        else:
            self._fetcher = URLLibFetcher()
    ]]
    The operand of [assert] is the parenthesised pair, a tuple. *)
Definition init_guard (im : Imports) (url : string) : PyVal :=
  PyTuple
    [ PyBool (negb (String.prefix "http+unix://" url && negb (HAS_UNIX_SOCKETS im)));
      PyStr "You need to install requests-unixsocket for Unix socket support." ].

Definition __init__ (im : Imports) (config : gmap (string * string) string)
    (url : string) (connect_timeout : PyVal) : PyResult RemoteScheduler :=
  match assert_ (init_guard im url) with
  | Raise e => Raise e
  | Ok _ =>
      let url' := rstrip url "/" in
      let timeout :=
        match connect_timeout with
        | PyNone => getfloat config "core" "rpc-connect-timeout" (PyFloat (10 # 1))
        | given => Ok given
        end in
      match timeout with
      | Raise e => Raise e
      | Ok connect_timeout' =>
          Ok {| _url := url';
                _connect_timeout := connect_timeout';
                _fetcher := if HAS_REQUESTS im then RequestsFetcher
                            else URLLibFetcher |}
      end
  end.

Definition default_url : string := "http://localhost:8082/".
Definition default_connect_timeout : PyVal := PyNone.

(** The effects of the standard library that the proxy uses. *)
Definition time_sleep (seconds : Z) : M unit := emit (EvSleep seconds).
Definition logger_info (msg : string) : M unit := emit (EvLogInfo msg).
Definition logger_exception (msg arg : string) : M unit :=
  emit (EvLogException msg arg).

(** [[
    def _wait(self):
        time.sleep(30)
    ]] *)
Definition _wait (self : RemoteScheduler) : M unit := time_sleep 30.

(** [self._fetcher.fetch(full_url, body, self._connect_timeout)]: the call
    is recorded, and answered by the network as its next transport call. *)
Definition call_fetcher (self : RemoteScheduler) (full_url : string)
    (body : Body) : M string :=
  fun tr =>
    (fetch (_fetcher self) (fetch_count tr) full_url body (_connect_timeout self),
     tr ++ [EvFetch full_url body (_connect_timeout self)]).

(** The message of the RPCError:
    ["Errors (%d attempts) when connecting to remote scheduler %r"
     % (attempts, self._url)]. *)
Definition rpc_error_message (attempts : Z) (url : string) : string :=
  "Errors (" +:+ pretty attempts +:+ " attempts) when connecting to remote scheduler "
    +:+ repr url.

(** *** The retry loop
    [[
    def _fetch(self, url_suffix, body, log_exceptions=True, attempts=3):
        full_url = urljoin(self._url, url_suffix)
        last_exception = None
        attempt = 0
        while attempt < attempts:
            attempt += 1
            if last_exception:
                logger.info("Retrying...")
                self._wait()  # wait for a bit and retry
            try:
                response = self._fetcher.fetch(full_url, body, self._connect_timeout)
                break
            except FetcherException as e:
                last_exception = e.original_exc
                if log_exceptions:
                    logger.exception("Failed connecting to remote scheduler %r", self._url)
                continue
        else:
            raise RPCError(
                "Errors (%d attempts) when connecting to remote scheduler %r" %
                (attempts, self._url),
                last_exception
            )
        return response
    ]]
    [fetch_loop] is the [while] statement with its [else] clause, entered
    with the current values of [attempt] and [last_exception]; it ends
    because [attempts - attempt] decreases. *)
Section Loop.
Variable self : RemoteScheduler.
Variable full_url : string.
Variable body : Body.
Variable log_exceptions : bool.
Variable attempts : Z.

(** The statements of the loop body before the [try]. *)
Definition before_attempt (last_exception : option LibExc) : M unit :=
  if exc_truthy last_exception
  then do _ <- logger_info "Retrying..."; _wait self
  else ret tt.

(** The statements of the [except] clause before [continue]. *)
Definition after_failure : M unit :=
  if log_exceptions
  then logger_exception "Failed connecting to remote scheduler %r" (_url self)
  else ret tt.

Equations fetch_loop (attempt : Z) (last_exception : option LibExc)
    (tr : Trace) : PyResult string * Trace
    by wf (Z.to_nat (attempts - attempt)) lt :=
  fetch_loop attempt last_exception tr with Z_lt_dec attempt attempts := {
    | right _ =>
        raise (RPCError (rpc_error_message attempts (_url self)) last_exception) tr
    | left _ =>
        let attempt' := attempt + 1 in
        match (do _ <- before_attempt last_exception;
               call_fetcher self full_url body) tr with
        | (Ok response, tr') => (Ok response, tr')
        | (Raise (FetcherException original_exc), tr') =>
            fetch_loop attempt' (Some original_exc) (snd (after_failure tr'))
        | (Raise e, tr') => (Raise e, tr')
        end
  }.
Next Obligation. lia. Qed.

End Loop.

Definition full_url_of (self : RemoteScheduler) (url_suffix : string) : string :=
  urljoin (_url self) url_suffix.

Definition _fetch (self : RemoteScheduler) (url_suffix : string) (body : Body)
    (log_exceptions : bool) (attempts : Z) : M string :=
  let full_url := full_url_of self url_suffix in
  let last_exception := None in
  let attempt := 0 in
  fetch_loop self full_url body log_exceptions attempts attempt last_exception.

(** *** The envelope
    [[
    def _request(self, url, data, log_exceptions=True, attempts=3):
        body = {'data': json.dumps(data)}

        page = self._fetch(url, body, log_exceptions, attempts)
        result = json.loads(page)
        return result["response"]
    ]] *)
Definition loads (page : string) : PyResult PyVal :=
  match json_loads page with
  | Some value => Ok value
  | None => Raise (LibraryError {| exc_class := ValueError; exc_args := page |})
  end.

Definition envelope (data : PyVal) : Body := [("data", json_dumps data)].

Definition _request (self : RemoteScheduler) (url : string) (data : PyVal)
    (log_exceptions : bool) (attempts : Z) : M PyVal :=
  let body := envelope data in
  do page <- _fetch self url body log_exceptions attempts;
  do result <- lift (loads page);
  lift (getitem result "response").

(** Default values of the keyword arguments of [_fetch] and [_request]. *)
Definition default_log_exceptions : bool := true.
Definition default_attempts : Z := 3.

(** *** The operations
    A method without a [return] statement returns [None]. *)

(** [[
    def ping(self, worker):
        # just one attemtps, keep-alive thread will keep trying anyway
        self._request('/api/ping', {'worker': worker}, attempts=1)
    ]] *)
Definition ping (self : RemoteScheduler) (worker : PyVal) : M PyVal :=
  do _ <- _request self "/api/ping" (PyDict [("worker", worker)])
            default_log_exceptions 1;
  ret PyNone.

(** [[
    def add_task(self, worker, task_id, status=PENDING, runnable=True,
                 deps=None, new_deps=None, expl=None, resources=None, priority=0,
                 family='', module=None, params=None, assistant=False):
        self._request('/api/add_task', { 'task_id': task_id, ... })
    ]] *)
Definition add_task (self : RemoteScheduler)
    (worker task_id status runnable deps new_deps expl resources priority
     family module params assistant : PyVal) : M PyVal :=
  do _ <- _request self "/api/add_task"
            (PyDict [ ("task_id", task_id);
                      ("worker", worker);
                      ("status", status);
                      ("runnable", runnable);
                      ("deps", deps);
                      ("new_deps", new_deps);
                      ("expl", expl);
                      ("resources", resources);
                      ("priority", priority);
                      ("family", family);
                      ("module", module);
                      ("params", params);
                      ("assistant", assistant) ])
            default_log_exceptions default_attempts;
  ret PyNone.

(** [[
    def get_work(self, worker, host=None, assistant=False):
        return self._request(
            '/api/get_work',
            {'worker': worker, 'host': host, 'assistant': assistant},
            log_exceptions=False,
            attempts=1)
    ]] *)
Definition get_work (self : RemoteScheduler) (worker host assistant : PyVal)
    : M PyVal :=
  _request self "/api/get_work"
    (PyDict [("worker", worker); ("host", host); ("assistant", assistant)])
    false 1.

Definition graph (self : RemoteScheduler) : M PyVal :=
  _request self "/api/graph" (PyDict []) default_log_exceptions default_attempts.

Definition dep_graph (self : RemoteScheduler) (task_id : PyVal) : M PyVal :=
  _request self "/api/dep_graph" (PyDict [("task_id", task_id)])
    default_log_exceptions default_attempts.

Definition inverse_dep_graph (self : RemoteScheduler) (task_id : PyVal) : M PyVal :=
  _request self "/api/inverse_dep_graph" (PyDict [("task_id", task_id)])
    default_log_exceptions default_attempts.

(** [[
    def task_list(self, status, upstream_status, search=None):
        return self._request('/api/task_list', {
            'search': search,
            'status': status,
            'upstream_status': upstream_status,
        })
    ]] *)
Definition task_list (self : RemoteScheduler) (status upstream_status search : PyVal)
    : M PyVal :=
  _request self "/api/task_list"
    (PyDict [("search", search); ("status", status);
             ("upstream_status", upstream_status)])
    default_log_exceptions default_attempts.

Definition worker_list (self : RemoteScheduler) : M PyVal :=
  _request self "/api/worker_list" (PyDict [])
    default_log_exceptions default_attempts.

Definition task_search (self : RemoteScheduler) (task_str : PyVal) : M PyVal :=
  _request self "/api/task_search" (PyDict [("task_str", task_str)])
    default_log_exceptions default_attempts.

Definition fetch_error (self : RemoteScheduler) (task_id : PyVal) : M PyVal :=
  _request self "/api/fetch_error" (PyDict [("task_id", task_id)])
    default_log_exceptions default_attempts.

Definition add_worker (self : RemoteScheduler) (worker info : PyVal) : M PyVal :=
  _request self "/api/add_worker" (PyDict [("worker", worker); ("info", info)])
    default_log_exceptions default_attempts.

(** [[
    def update_resources(self, **resources):
        return self._request('/api/update_resources', resources)
    ]] *)
Definition update_resources (self : RemoteScheduler)
    (resources : list (string * PyVal)) : M PyVal :=
  _request self "/api/update_resources" (PyDict resources)
    default_log_exceptions default_attempts.

Definition prune (self : RemoteScheduler) : M PyVal :=
  _request self "/api/prune" (PyDict []) default_log_exceptions default_attempts.

Definition re_enable_task (self : RemoteScheduler) (task_id : PyVal) : M PyVal :=
  _request self "/api/re_enable_task" (PyDict [("task_id", task_id)])
    default_log_exceptions default_attempts.

(** A call of one of the operations, with its arguments. *)
Inductive Operation : Type :=
| Ping (worker : PyVal)
| AddTask (worker task_id status runnable deps new_deps expl resources
           priority family module params assistant : PyVal)
| GetWork (worker host assistant : PyVal)
| Graph
| DepGraph (task_id : PyVal)
| InverseDepGraph (task_id : PyVal)
| TaskList (status upstream_status search : PyVal)
| WorkerList
| TaskSearch (task_str : PyVal)
| FetchError (task_id : PyVal)
| AddWorker (worker info : PyVal)
| UpdateResources (resources : list (string * PyVal))
| Prune
| ReEnableTask (task_id : PyVal).

Definition call (self : RemoteScheduler) (op : Operation) : M PyVal :=
  match op with
  | Ping worker => ping self worker
  | AddTask worker task_id status runnable deps new_deps expl resources
      priority family module params assistant =>
      add_task self worker task_id status runnable deps new_deps expl
        resources priority family module params assistant
  | GetWork worker host assistant => get_work self worker host assistant
  | Graph => graph self
  | DepGraph task_id => dep_graph self task_id
  | InverseDepGraph task_id => inverse_dep_graph self task_id
  | TaskList status upstream_status search =>
      task_list self status upstream_status search
  | WorkerList => worker_list self
  | TaskSearch task_str => task_search self task_str
  | FetchError task_id => fetch_error self task_id
  | AddWorker worker info => add_worker self worker info
  | UpdateResources resources => update_resources self resources
  | Prune => prune self
  | ReEnableTask task_id => re_enable_task self task_id
  end.

End Rpc.

(** ** The retry loop, by the number of attempts left

    The same loop as a structural recursion on the number of iterations
    that remain.  [attempts_left m n last_exception] is the result of the
    loop and the events it adds when [m] iterations remain and [n] transport
    calls were made before. *)
Section LoopByCount.

Context {lib : PyLib}.
Variable net : Network.
Variable self : RemoteScheduler.
Variable full_url : string.
Variable body : Body.
Variable log_exceptions : bool.
Variable attempts : Z.

Definition fetch_event : Event := EvFetch full_url body (_connect_timeout self).

Definition retry_events (last_exception : option LibExc) : list Event :=
  if exc_truthy last_exception then [EvLogInfo "Retrying..."; EvSleep 30] else [].

Definition failure_events : list Event :=
  if log_exceptions
  then [EvLogException "Failed connecting to remote scheduler %r" (_url self)]
  else [].

Fixpoint attempts_left (m n : nat) (last_exception : option LibExc)
    : PyResult string * list Event :=
  match m with
  | O => (Raise (RPCError (rpc_error_message attempts (_url self)) last_exception), [])
  | S m' =>
      let now := retry_events last_exception ++ [fetch_event] in
      match fetch net (_fetcher self) n full_url body (_connect_timeout self) with
      | Ok response => (Ok response, now)
      | Raise (FetcherException original_exc) =>
          let (r, later) := attempts_left m' (S n) (Some original_exc) in
          (r, now ++ failure_events ++ later)
      | Raise e => (Raise e, now)
      end
  end.

(** The exception the [n]-th transport call hands to the [except] clause,
    if it fails with a FetcherException. *)
Definition original_exc_at (n : nat) : option LibExc :=
  match fetch net (_fetcher self) n full_url body (_connect_timeout self) with
  | Raise (FetcherException original_exc) => Some original_exc
  | _ => None
  end.

(** [k] calls of the fetcher with a wait of 30 seconds between one and the
    next; [waited] tells whether a wait also comes before the first. *)
Fixpoint spaced_fetches (waited : bool) (k : nat) : list Event :=
  match k with
  | O => []
  | S k' => (if waited then [EvSleep 30] else []) ++ fetch_event :: spaced_fetches true k'
  end.

End LoopByCount.

(** The calls of the fetcher and the waits of a trace, in order. *)
Definition skeleton (tr : Trace) : list Event :=
  List.filter (fun ev => is_fetch ev || is_sleep ev) tr.

(** The records of [logger.exception] and of [logger.info] in a trace. *)
Definition is_log_exception (ev : Event) : bool :=
  match ev with EvLogException _ _ => true | _ => false end.

Definition is_log_info (ev : Event) : bool :=
  match ev with EvLogInfo _ => true | _ => false end.

Definition log_exception_count (tr : Trace) : nat :=
  length (List.filter is_log_exception tr).

Definition log_info_count (tr : Trace) : nat :=
  length (List.filter is_log_info tr).

(** Whether the loop of [_fetch] ended in its [else] clause. *)
Definition is_RPCError {A : Type} (r : PyResult A) : bool :=
  match r with
  | Raise (RPCError _ _) => true
  | _ => false
  end.

(** The exception classes a fetcher catches and wraps. *)
Definition caught_by (fetcher : Fetcher) (e : LibExc) : bool :=
  match fetcher with
  | URLLibFetcher => is_URLError e || is_socket_timeout e
  | RequestsFetcher => is_RequestException e
  end.

(** What the transport library does inside the [try] of a fetcher. *)
Definition transport (net : Network) {lib : PyLib} (fetcher : Fetcher) (n : nat)
    (full_url : string) (body : Body) (timeout : PyVal) : Outcome string :=
  match fetcher with
  | URLLibFetcher => URLLibFetcher_try net n full_url body timeout
  | RequestsFetcher => RequestsFetcher_try net n full_url body timeout
  end.

(** A transport that fails on every attempt, as the proxy sees it. *)
Definition always_fails (net : Network) {lib : PyLib} (self : RemoteScheduler) : Prop :=
  forall n full_url body timeout,
    exists e, fetch net (_fetcher self) n full_url body timeout = Raise (FetcherException e).

(** The request each operation makes: endpoint, argument object,
    [log_exceptions] and [attempts]; and whether the method returns what
    [_request] returns. *)
Definition request_of (op : Operation) : string * PyVal * bool * Z :=
  match op with
  | Ping worker => ("/api/ping", PyDict [("worker", worker)], true, 1)
  | AddTask worker task_id status runnable deps new_deps expl resources
      priority family module params assistant =>
      ("/api/add_task",
       PyDict [ ("task_id", task_id); ("worker", worker); ("status", status);
                ("runnable", runnable); ("deps", deps); ("new_deps", new_deps);
                ("expl", expl); ("resources", resources); ("priority", priority);
                ("family", family); ("module", module); ("params", params);
                ("assistant", assistant) ],
       true, 3)
  | GetWork worker host assistant =>
      ("/api/get_work",
       PyDict [("worker", worker); ("host", host); ("assistant", assistant)],
       false, 1)
  | Graph => ("/api/graph", PyDict [], true, 3)
  | DepGraph task_id => ("/api/dep_graph", PyDict [("task_id", task_id)], true, 3)
  | InverseDepGraph task_id =>
      ("/api/inverse_dep_graph", PyDict [("task_id", task_id)], true, 3)
  | TaskList status upstream_status search =>
      ("/api/task_list",
       PyDict [("search", search); ("status", status);
               ("upstream_status", upstream_status)],
       true, 3)
  | WorkerList => ("/api/worker_list", PyDict [], true, 3)
  | TaskSearch task_str => ("/api/task_search", PyDict [("task_str", task_str)], true, 3)
  | FetchError task_id => ("/api/fetch_error", PyDict [("task_id", task_id)], true, 3)
  | AddWorker worker info =>
      ("/api/add_worker", PyDict [("worker", worker); ("info", info)], true, 3)
  | UpdateResources resources => ("/api/update_resources", PyDict resources, true, 3)
  | Prune => ("/api/prune", PyDict [], true, 3)
  | ReEnableTask task_id =>
      ("/api/re_enable_task", PyDict [("task_id", task_id)], true, 3)
  end.

Definition returns_payload (op : Operation) : bool :=
  match op with
  | Ping _ => false
  | AddTask _ _ _ _ _ _ _ _ _ _ _ _ _ => false
  | _ => true
  end.

(** ** Task identity *)

Module TaskId.

(** A parameter of a task instance: its name, whether the task class
    declares it significant, and its serialized value. *)
Record Param : Type := {
  name : string;
  significant : bool;
  value : string
}.

Definition with_value (p : Param) (v : string) : Param :=
  {| name := name p; significant := significant p; value := v |}.

(** Sorting by parameter name. *)
Fixpoint insert (p : Param) (sorted : list Param) : list Param :=
  match sorted with
  | [] => [p]
  | q :: rest =>
      if String.leb (name p) (name q) then p :: sorted else q :: insert p rest
  end.

Fixpoint sort_by_name (params : list Param) : list Param :=
  match params with
  | [] => []
  | p :: rest => insert p (sort_by_name rest)
  end.

Definition render (p : Param) : string := name p +:+ "=" +:+ value p.

(** Modelled from the spec: the derivation of [task_id] in luigi/task.py,
    which is not part of the sources at hand.  The id is "deterministically
    derived from (family, sorted significant-parameter name -> serialized-
    value pairs)", and "insignificant parameters are excluded from the
    derivation".  The rendering is the one that
    [ParameterTest.test_insignificant_parameter] expects:
    ['InsignificantParameterTask(bar=y)'] for [foo='x'] insignificant and
    [bar='y'] significant; several pairs are separated by [", "]. *)
Definition compute_id (family : string) (params : list Param) : string :=
  family +:+ "("
    +:+ String.concat ", " (map render (sort_by_name (List.filter significant params)))
    +:+ ")".

(** Two assignments that differ only in parameters marked insignificant. *)
Definition same_significant (p q : Param) : Prop :=
  name p = name q /\ significant p = significant q /\
  (significant p = true -> value p = value q).

End TaskId.

(** ** Sample instances, used to run the definitions *)

Module Sample.

Definition dq : string := String (ascii_of_nat 34) EmptyString.

(** A JSON writer for values without floats, without escapes. *)
Fixpoint dumps (v : PyVal) : string :=
  match v with
  | PyNone => "null"
  | PyBool b => if b then "true" else "false"
  | PyInt z => pretty z
  | PyFloat q => pretty (Qnum q)
  | PyStr s => dq +:+ s +:+ dq
  | PyList items | PyTuple items =>
      "[" +:+ String.concat ", " (map dumps items) +:+ "]"
  | PyDict items =>
      "{" +:+ String.concat ", "
                (map (fun kv => dq +:+ fst kv +:+ dq +:+ ": " +:+ dumps (snd kv)) items)
          +:+ "}"
  end.

(** The page [{"response": "stop"}], and the page [{"response": null}]. *)
Definition stop_page : string := dumps (PyDict [("response", PyStr "stop")]).
Definition null_page : string := dumps (PyDict [("response", PyNone)]).

Definition loads_sample (page : string) : option PyVal :=
  if String.eqb page stop_page then Some (PyDict [("response", PyStr "stop")])
  else if String.eqb page null_page then Some (PyDict [("response", PyNone)])
  else None.

#[export] Instance lib : PyLib := {|
  json_dumps := dumps;
  json_loads := loads_sample;
  urljoin := fun base suffix => base +:+ suffix;
  urlencode := fun body => String.concat "&" (map (fun kv => fst kv +:+ "=" +:+ snd kv) body);
  repr := fun s => "'" +:+ s +:+ "'";
  float_of_str := fun s => if String.eqb s "2.5" then Some (5 # 2)%Q else None
|}.

Definition refused : LibExc :=
  {| exc_class := URLError; exc_args := "Connection refused" |}.
Definition timed_out : LibExc :=
  {| exc_class := socket_timeout; exc_args := "timed out" |}.
Definition no_connection : LibExc :=
  {| exc_class := requests_ConnectionError; exc_args := "Connection refused" |}.

(** No transport call ever succeeds. *)
Definition dead_net : Network := {|
  urlopen_read := fun n _ _ _ => if Nat.even n then Throws refused else Throws timed_out;
  session_get := fun _ _ _ _ => Throws no_connection
|}.

(** Two failures, then the scheduler answers [{"response": "stop"}]. *)
Definition flaky_net : Network := {|
  urlopen_read := fun n _ _ _ =>
    if (n <? 2)%nat then Throws refused else Returns stop_page;
  session_get := fun n _ _ _ =>
    if (n <? 2)%nat then Throws no_connection
    else Returns {| status_code := 200; text := stop_page |}
|}.

(** The scheduler answers at once. *)
Definition live_net : Network := {|
  urlopen_read := fun _ _ _ _ => Returns stop_page;
  session_get := fun _ _ _ _ => Returns {| status_code := 200; text := stop_page |}
|}.

(** The scheduler answers at once with a page that is not JSON. *)
Definition garbled_net : Network := {|
  urlopen_read := fun _ _ _ _ => Returns "<html>";
  session_get := fun _ _ _ _ => Returns {| status_code := 200; text := "<html>" |}
|}.

Definition no_requests : Imports :=
  {| can_import_requests_unixsockets := false; can_import_requests := false |}.
Definition plain_requests : Imports :=
  {| can_import_requests_unixsockets := false; can_import_requests := true |}.

Definition urllib_proxy : RemoteScheduler :=
  {| _url := "http://localhost:8082";
     _connect_timeout := PyFloat (10 # 1);
     _fetcher := URLLibFetcher |}.
Definition requests_proxy : RemoteScheduler :=
  {| _url := "http://localhost:8082";
     _connect_timeout := PyFloat (10 # 1);
     _fetcher := RequestsFetcher |}.

(** The scheduler host answers every request with status 503. *)
Definition unavailable_net : Network := {|
  urlopen_read := fun _ _ _ _ =>
    Throws {| exc_class := urllib_HTTPError; exc_args := "503" |};
  session_get := fun _ _ _ _ =>
    Returns {| status_code := 503; text := "Service Unavailable" |}
|}.

(** The connection is reset while the answer is read. *)
Definition reset_net : Network := {|
  urlopen_read := fun _ _ _ _ =>
    Throws {| exc_class := socket_error; exc_args := "Connection reset by peer" |};
  session_get := fun _ _ _ _ =>
    Throws {| exc_class := socket_error; exc_args := "Connection reset by peer" |}
|}.

(** A library whose [json.loads] reads every page as [{"error": "unknown"}],
    a dict without the key ["response"]. *)
Definition lib_without_response : PyLib := {|
  json_dumps := dumps;
  json_loads := fun _ => Some (PyDict [("error", PyStr "unknown")]);
  urljoin := fun base suffix => base +:+ suffix;
  urlencode := fun body => String.concat "&" (map (fun kv => fst kv +:+ "=" +:+ snd kv) body);
  repr := fun s => "'" +:+ s +:+ "'";
  float_of_str := fun _ => None
|}.

(** [add_task] for a pending task without dependencies. *)
Definition an_add_task : Operation :=
  AddTask (PyStr "worker-1") (PyStr "Foo(bar=y)") (PyStr "PENDING") (PyBool true)
    PyNone PyNone PyNone PyNone (PyInt 0) (PyStr "Foo") PyNone PyNone (PyBool false).

End Sample.

(** * Properties *)

Section TraceFacts.

Context {lib : PyLib}.
Variable net : Network.

Lemma fetch_count_app (tr1 tr2 : Trace) :
  fetch_count (tr1 ++ tr2) = (fetch_count tr1 + fetch_count tr2)%nat.
Proof. unfold fetch_count. rewrite List.filter_app, List.length_app. reflexivity. Qed.

Lemma sleep_count_app (tr1 tr2 : Trace) :
  sleep_count (tr1 ++ tr2) = (sleep_count tr1 + sleep_count tr2)%nat.
Proof. unfold sleep_count. rewrite List.filter_app, List.length_app. reflexivity. Qed.

Lemma before_attempt_trace (self : RemoteScheduler) (last_exception : option LibExc)
    (tr : Trace) :
  before_attempt self last_exception tr = (Ok tt, tr ++ retry_events last_exception).
Proof.
  unfold before_attempt, retry_events.
  destruct (exc_truthy last_exception); cbn.
  - unfold _wait, time_sleep, emit. rewrite <- app_assoc. reflexivity.
  - rewrite app_nil_r. reflexivity.
Qed.

Lemma after_failure_trace (self : RemoteScheduler) (log_exceptions : bool) (tr : Trace) :
  after_failure self log_exceptions tr = (Ok tt, tr ++ failure_events self log_exceptions).
Proof.
  unfold after_failure, failure_events.
  destruct log_exceptions; cbn; [reflexivity | rewrite app_nil_r; reflexivity].
Qed.

Lemma fetch_count_retry_events (last_exception : option LibExc) :
  fetch_count (retry_events last_exception) = 0%nat.
Proof. unfold retry_events. destruct (exc_truthy last_exception); reflexivity. Qed.

Lemma fetch_count_failure_events (self : RemoteScheduler) (log_exceptions : bool) :
  fetch_count (failure_events self log_exceptions) = 0%nat.
Proof. unfold failure_events. destruct log_exceptions; reflexivity. Qed.

Lemma fetch_loop_by_count (self : RemoteScheduler) (full_url : string) (body : Body)
    (log_exceptions : bool) (attempts : Z) (m : nat) :
  forall (attempt : Z) (last_exception : option LibExc) (tr : Trace),
    Z.to_nat (attempts - attempt) = m ->
    fetch_loop net self full_url body log_exceptions attempts attempt last_exception tr =
    (fst (attempts_left net self full_url body log_exceptions attempts m
            (fetch_count tr) last_exception),
     tr ++ snd (attempts_left net self full_url body log_exceptions attempts m
                  (fetch_count tr) last_exception)).
Proof.
  induction m as [|m IH]; intros attempt last_exception tr Hm;
    rewrite fetch_loop_equation_1; destruct (Z_lt_dec attempt attempts) as [Hlt|Hge];
    try lia; cbn [fetch_loop_unfold_clause_1 attempts_left].
  - unfold raise. cbn. rewrite app_nil_r. reflexivity.
  - unfold bind. rewrite before_attempt_trace. unfold call_fetcher.
    rewrite fetch_count_app, fetch_count_retry_events, Nat.add_0_r.
    destruct (fetch net (_fetcher self) (fetch_count tr) full_url body (_connect_timeout self))
      as [response|[e|original_exc|msg sub]]; cbn [fst snd].
    + rewrite <- app_assoc. reflexivity.
    + rewrite <- app_assoc. reflexivity.
    + rewrite after_failure_trace. cbn [snd].
      rewrite (IH (attempt + 1) (Some original_exc)) by lia.
      rewrite !fetch_count_app, fetch_count_retry_events, fetch_count_failure_events.
      replace (fetch_count tr + 0 + fetch_count [EvFetch full_url body (_connect_timeout self)] + 0)%nat
        with (S (fetch_count tr)) by (cbn; lia).
      destruct (attempts_left net self full_url body log_exceptions attempts m
                  (S (fetch_count tr)) (Some original_exc)) as [r later].
      cbn [fst snd]. unfold fetch_event. rewrite <- !app_assoc. reflexivity.
    + rewrite <- app_assoc. reflexivity.
Qed.
End TraceFacts.

(** ** The fetchers *)

Lemma fetch_cases {lib : PyLib} (net : Network) (fetcher : Fetcher) (n : nat)
    (full_url : string) (body : Body) (timeout : PyVal) :
  fetch net fetcher n full_url body timeout =
  match transport net fetcher n full_url body timeout with
  | Returns page => Ok page
  | Throws e =>
      if caught_by fetcher e then Raise (FetcherException e) else Raise (LibraryError e)
  end.
Proof. destruct fetcher; reflexivity. Qed.

(** ** Counting in traces *)

Lemma skeleton_app (tr1 tr2 : Trace) :
  skeleton (tr1 ++ tr2) = skeleton tr1 ++ skeleton tr2.
Proof. unfold skeleton. apply List.filter_app. Qed.

Lemma fetch_count_skeleton (tr : Trace) : fetch_count (skeleton tr) = fetch_count tr.
Proof.
  unfold fetch_count, skeleton. induction tr as [|ev tr IH]; [reflexivity|].
  destruct ev; cbn; try rewrite IH; reflexivity || (f_equal; exact IH) || exact IH.
Qed.

Lemma sleep_count_skeleton (tr : Trace) : sleep_count (skeleton tr) = sleep_count tr.
Proof.
  unfold sleep_count, skeleton. induction tr as [|ev tr IH]; [reflexivity|].
  destruct ev; cbn; try rewrite IH; reflexivity || (f_equal; exact IH) || exact IH.
Qed.

(** ** The loop by count: what it returns and what it leaves in the trace *)

Section LoopFacts.

Context {lib : PyLib}.
Variable net : Network.
Variable self : RemoteScheduler.
Variable full_url : string.
Variable body : Body.
Variable log_exceptions : bool.
Variable attempts : Z.

Let outcome (n : nat) : PyResult string :=
  fetch net (_fetcher self) n full_url body (_connect_timeout self).
Let run := attempts_left net self full_url body log_exceptions attempts.
Let the_fetch := fetch_event self full_url body.
Let spaced := spaced_fetches self full_url body.

Lemma skeleton_retry_events (last_exception : option LibExc) :
  skeleton (retry_events last_exception) =
  if exc_truthy last_exception then [EvSleep 30] else [].
Proof. unfold retry_events. destruct (exc_truthy last_exception); reflexivity. Qed.

Lemma skeleton_failure_events :
  skeleton (failure_events self log_exceptions) = [].
Proof. unfold failure_events. destruct log_exceptions; reflexivity. Qed.

Lemma fetch_count_spaced (waited : bool) (k : nat) :
  fetch_count (spaced waited k) = k.
Proof.
  revert waited. induction k as [|k IH]; intros waited; [reflexivity|].
  subst spaced. cbn [spaced_fetches]. rewrite fetch_count_app.
  change (fetch_event self full_url body :: spaced_fetches self full_url body true k)
    with ([fetch_event self full_url body] ++ spaced_fetches self full_url body true k).
  rewrite fetch_count_app, (IH true). destruct waited; reflexivity.
Qed.

Lemma sleep_count_spaced (waited : bool) (k : nat) :
  sleep_count (spaced waited k) = if waited then k else Nat.pred k.
Proof.
  revert waited. induction k as [|k IH]; intros waited.
  - destruct waited; reflexivity.
  - subst spaced. cbn [spaced_fetches]. rewrite sleep_count_app.
    change (fetch_event self full_url body :: spaced_fetches self full_url body true k)
      with ([fetch_event self full_url body] ++ spaced_fetches self full_url body true k).
    rewrite sleep_count_app, (IH true). destruct waited; reflexivity.
Qed.

(** Every attempt fails: the loop runs dry and raises the RPCError. *)
Lemma attempts_left_exhausted (m : nat) :
  forall (n : nat) (last_exception : option LibExc),
    (forall i, (i < m)%nat -> exists e, outcome (n + i) = Raise (FetcherException e)) ->
    fst (run m n last_exception) =
      Raise (RPCError (rpc_error_message attempts (_url self))
               (match m with
                | O => last_exception
                | S m' => original_exc_at net self full_url body (n + m')
                end)) /\
    skeleton (snd (run m n last_exception)) = spaced (exc_truthy last_exception) m.
Proof.
  subst run spaced outcome.
  induction m as [|m IH]; intros n last_exception Hfail; [split; reflexivity|].
  destruct (Hfail 0%nat ltac:(lia)) as [e He]. rewrite Nat.add_0_r in He.
  cbn [attempts_left]. rewrite He.
  specialize (IH (S n) (Some e)).
  destruct (attempts_left net self full_url body log_exceptions attempts m (S n) (Some e))
    as [r later].
  destruct IH as [IHr IHs].
  { intros i Hi. replace (S n + i)%nat with (n + S i)%nat by lia. apply Hfail. lia. }
  cbn [fst snd] in *. split.
  - rewrite IHr. destruct m as [|m'].
    + unfold original_exc_at. rewrite Nat.add_0_r, He. reflexivity.
    + replace (S n + m')%nat with (n + S m')%nat by lia. reflexivity.
  - rewrite !skeleton_app, skeleton_retry_events, skeleton_failure_events, IHs.
    cbn [spaced_fetches exc_truthy]. destruct (exc_truthy last_exception); reflexivity.
Qed.

(** The first attempt that does not fail with a FetcherException ends the
    loop, with its own result. *)
Lemma attempts_left_stops (k : nat) :
  forall (m n : nat) (last_exception : option LibExc),
    (k < m)%nat ->
    (forall i, (i < k)%nat -> exists e, outcome (n + i) = Raise (FetcherException e)) ->
    (forall e, outcome (n + k) <> Raise (FetcherException e)) ->
    fst (run m n last_exception) = outcome (n + k) /\
    skeleton (snd (run m n last_exception)) = spaced (exc_truthy last_exception) (S k).
Proof.
  subst run spaced outcome.
  induction k as [|k IH]; intros m n last_exception Hk Hfail Hstop;
    (destruct m as [|m]; [lia|]); cbn [attempts_left].
  - rewrite Nat.add_0_r in *.
    destruct (fetch net (_fetcher self) n full_url body (_connect_timeout self))
      as [response|[e|e|msg sub]] eqn:Hout;
      try (exfalso; eapply Hstop; reflexivity);
      cbn [fst snd]; (split; [reflexivity|]);
      rewrite skeleton_app, skeleton_retry_events;
      destruct (exc_truthy last_exception); reflexivity.
  - destruct (Hfail 0%nat ltac:(lia)) as [e He]. rewrite Nat.add_0_r in He.
    rewrite He.
    specialize (IH m (S n) (Some e)).
    destruct (attempts_left net self full_url body log_exceptions attempts m (S n) (Some e))
      as [r later].
    destruct IH as [IHr IHs].
    { lia. }
    { intros i Hi. replace (S n + i)%nat with (n + S i)%nat by lia. apply Hfail. lia. }
    { intros e'. replace (S n + k)%nat with (n + S k)%nat by lia. apply Hstop. }
    cbn [fst snd] in *. split.
    + rewrite IHr. f_equal. lia.
    + rewrite !skeleton_app, skeleton_retry_events, skeleton_failure_events, IHs.
      cbn [spaced_fetches exc_truthy]. destruct (exc_truthy last_exception); reflexivity.
Qed.

(** Whatever the network does: the calls of the fetcher are spaced by the
    wait, each call that is followed by a wait failed, and no more than
    [m] calls are made. *)
Lemma attempts_left_shape (m : nat) :
  forall (n : nat) (last_exception : option LibExc),
    exists k,
      (k <= m)%nat /\
      skeleton (snd (run m n last_exception)) = spaced (exc_truthy last_exception) k /\
      (forall i, (S i < k)%nat -> exists e, outcome (n + i) = Raise (FetcherException e)).
Proof.
  subst run spaced outcome.
  induction m as [|m IH]; intros n last_exception.
  - exists 0%nat. repeat split; [lia|]. intros i Hi. lia.
  - cbn [attempts_left].
    destruct (fetch net (_fetcher self) n full_url body (_connect_timeout self))
      as [response|[e|e|msg sub]] eqn:Hout.
    3: destruct (IH (S n) (Some e)) as (k & Hk & Hs & Hf);
       destruct (attempts_left net self full_url body log_exceptions attempts m (S n) (Some e))
         as [r later]; cbn [fst snd] in *.
    3: { exists (S k). split; [lia|]. split.
         - rewrite !skeleton_app, skeleton_retry_events, skeleton_failure_events, Hs.
           cbn [spaced_fetches exc_truthy]. destruct (exc_truthy last_exception); reflexivity.
         - intros [|i] Hi.
           + rewrite Nat.add_0_r. eauto.
           + replace (n + S i)%nat with (S n + i)%nat by lia. apply Hf. lia. }
    all: exists 1%nat; cbn [fst snd]; split; [lia|]; split; [|intros i Hi; lia];
      rewrite skeleton_app, skeleton_retry_events;
      destruct (exc_truthy last_exception); reflexivity.
Qed.

(** A FetcherException never leaves the loop, and neither does an
    exception of a class that the fetcher catches. *)
Lemma attempts_left_raises (m : nat) :
  forall (n : nat) (last_exception : option LibExc),
    match fst (run m n last_exception) with
    | Ok _ => True
    | Raise (LibraryError e) => caught_by (_fetcher self) e = false
    | Raise (FetcherException _) => False
    | Raise (RPCError _ _) => True
    end.
Proof.
  subst run outcome.
  induction m as [|m IH]; intros n last_exception; [exact I|].
  cbn [attempts_left].
  destruct (fetch net (_fetcher self) n full_url body (_connect_timeout self))
    as [response|[e|e|msg sub]] eqn:Hout; cbn [fst]; try exact I.
  - revert Hout. rewrite fetch_cases.
    destruct (transport net (_fetcher self) n full_url body (_connect_timeout self))
      as [page|e']; [discriminate|].
    destruct (caught_by (_fetcher self) e') eqn:Hc; [discriminate|].
    intros [= <-]. exact Hc.
  - specialize (IH (S n) (Some e)).
    destruct (attempts_left net self full_url body log_exceptions attempts m (S n) (Some e))
      as [r later]. exact IH.
Qed.

(** Every call of the fetcher in the loop carries the same URL, body and
    timeout. *)
Lemma attempts_left_fetches (m : nat) :
  forall (n : nat) (last_exception : option LibExc),
    Forall (fun ev => is_fetch ev = true -> ev = the_fetch)
      (snd (run m n last_exception)).
Proof.
  subst run the_fetch.
  assert (Hretry : forall le, Forall (fun ev => is_fetch ev = true ->
                     ev = fetch_event self full_url body) (retry_events le)).
  { intros le. unfold retry_events. destruct (exc_truthy le);
      repeat constructor; discriminate. }
  assert (Hone : Forall (fun ev => is_fetch ev = true ->
                   ev = fetch_event self full_url body) [fetch_event self full_url body]).
  { repeat constructor. }
  induction m as [|m IH]; intros n last_exception; [constructor|].
  cbn [attempts_left].
  destruct (fetch net (_fetcher self) n full_url body (_connect_timeout self))
    as [response|[e|e|msg sub]]; cbn [snd];
    try (apply Forall_app; split; [apply Hretry | apply Hone]).
  specialize (IH (S n) (Some e)).
  destruct (attempts_left net self full_url body log_exceptions attempts m (S n) (Some e))
    as [r later]. cbn [snd] in *.
  rewrite !Forall_app. repeat split; auto.
  unfold failure_events. destruct log_exceptions; repeat constructor; discriminate.
Qed.

End LoopFacts.

(** ** From the loop to [_fetch], [_request] and the operations *)

Section ProxyFacts.

Context {lib : PyLib}.
Variable net : Network.
Variable self : RemoteScheduler.

Lemma _fetch_by_count (url_suffix : string) (body : Body) (log_exceptions : bool)
    (attempts : Z) (tr : Trace) :
  _fetch net self url_suffix body log_exceptions attempts tr =
  (fst (attempts_left net self (full_url_of self url_suffix) body log_exceptions
          attempts (Z.to_nat attempts) (fetch_count tr) None),
   tr ++ snd (attempts_left net self (full_url_of self url_suffix) body log_exceptions
                attempts (Z.to_nat attempts) (fetch_count tr) None)).
Proof.
  unfold _fetch. apply fetch_loop_by_count. f_equal. lia.
Qed.

Lemma _request_after_fetch (url : string) (data : PyVal) (log_exceptions : bool)
    (attempts : Z) (tr : Trace) :
  _request net self url data log_exceptions attempts tr =
  (match fst (_fetch net self url (envelope data) log_exceptions attempts tr) with
   | Ok page =>
       match loads page with
       | Ok result => getitem result "response"
       | Raise e => Raise e
       end
   | Raise e => Raise e
   end,
   snd (_fetch net self url (envelope data) log_exceptions attempts tr)).
Proof.
  unfold _request, bind, lift.
  destruct (_fetch net self url (envelope data) log_exceptions attempts tr)
    as [[page|e] tr']; cbn [fst snd]; [|reflexivity].
  destruct (loads page); reflexivity.
Qed.

Lemma call_request (op : Operation) (tr : Trace) :
  call net self op tr =
  match request_of op with
  | (url, data, log_exceptions, attempts) =>
      (match fst (_request net self url data log_exceptions attempts tr) with
       | Ok payload => Ok (if returns_payload op then payload else PyNone)
       | Raise e => Raise e
       end,
       snd (_request net self url data log_exceptions attempts tr))
  end.
Proof.
  destruct op; cbn [call request_of returns_payload];
    unfold ping, add_task, get_work, graph, dep_graph, inverse_dep_graph, task_list,
      worker_list, task_search, fetch_error, add_worker, update_resources, prune,
      re_enable_task, default_log_exceptions, default_attempts, bind, ret;
    match goal with
    | |- context [_request ?n ?s ?u ?d ?l ?a ?t] =>
        destruct (_request n s u d l a t) as [[payload|e] tr']
    end; reflexivity.
Qed.

(** The errors of the JSON handling in [_request] are of builtin classes
    that no fetcher catches. *)
Lemma json_handling_raises (page : string) :
  match (match loads page with
         | Ok result => getitem result "response"
         | Raise e => Raise e
         end) with
  | Ok _ => True
  | Raise (LibraryError e) => forall fetcher, caught_by fetcher e = false
  | Raise _ => False
  end.
Proof.
  unfold loads, getitem.
  destruct (json_loads page) as [result|]; [destruct result|]; cbn;
    try (intros fetcher; destruct fetcher; reflexivity).
  destruct (dict_get items "response"); [exact I|].
  intros fetcher; destruct fetcher; reflexivity.
Qed.

(** [_fetch] when every attempt fails. *)
Lemma _fetch_exhausted (url_suffix : string) (body : Body) (log_exceptions : bool)
    (attempts : Z) (tr : Trace) :
  (forall i, (i < Z.to_nat attempts)%nat ->
     exists e, fetch net (_fetcher self) (fetch_count tr + i)
                 (full_url_of self url_suffix) body (_connect_timeout self)
               = Raise (FetcherException e)) ->
  exists new,
    _fetch net self url_suffix body log_exceptions attempts tr =
      (Raise (RPCError (rpc_error_message attempts (_url self))
                (match Z.to_nat attempts with
                 | O => None
                 | S m' => original_exc_at net self (full_url_of self url_suffix) body
                             (fetch_count tr + m')
                 end)),
       tr ++ new) /\
    skeleton new =
      spaced_fetches self (full_url_of self url_suffix) body false (Z.to_nat attempts).
Proof.
  intros Hfail. rewrite _fetch_by_count.
  destruct (attempts_left_exhausted net self (full_url_of self url_suffix) body
              log_exceptions attempts (Z.to_nat attempts) (fetch_count tr) None Hfail)
    as [Hr Hs].
  eexists. split; [|exact Hs]. rewrite Hr. reflexivity.
Qed.

(** [_fetch] when attempt number [k] (from 0) is the first that does not
    fail with a FetcherException. *)
Lemma _fetch_stops (url_suffix : string) (body : Body) (log_exceptions : bool)
    (attempts : Z) (tr : Trace) (k : nat) :
  (k < Z.to_nat attempts)%nat ->
  (forall i, (i < k)%nat ->
     exists e, fetch net (_fetcher self) (fetch_count tr + i)
                 (full_url_of self url_suffix) body (_connect_timeout self)
               = Raise (FetcherException e)) ->
  (forall e, fetch net (_fetcher self) (fetch_count tr + k)
               (full_url_of self url_suffix) body (_connect_timeout self)
             <> Raise (FetcherException e)) ->
  exists new,
    _fetch net self url_suffix body log_exceptions attempts tr =
      (fetch net (_fetcher self) (fetch_count tr + k)
         (full_url_of self url_suffix) body (_connect_timeout self),
       tr ++ new) /\
    skeleton new =
      spaced_fetches self (full_url_of self url_suffix) body false (S k).
Proof.
  intros Hk Hfail Hstop. rewrite _fetch_by_count.
  destruct (attempts_left_stops net self (full_url_of self url_suffix) body
              log_exceptions attempts k (Z.to_nat attempts) (fetch_count tr) None
              Hk Hfail Hstop) as [Hr Hs].
  eexists. split; [|exact Hs]. rewrite Hr. reflexivity.
Qed.

Lemma _fetch_raises (url_suffix : string) (body : Body) (log_exceptions : bool)
    (attempts : Z) (tr : Trace) :
  match fst (_fetch net self url_suffix body log_exceptions attempts tr) with
  | Ok _ => True
  | Raise (LibraryError e) => caught_by (_fetcher self) e = false
  | Raise (FetcherException _) => False
  | Raise (RPCError _ _) => True
  end.
Proof. rewrite _fetch_by_count. cbn [fst]. apply attempts_left_raises. Qed.

Lemma _request_raises (url : string) (data : PyVal) (log_exceptions : bool)
    (attempts : Z) (tr : Trace) :
  match fst (_request net self url data log_exceptions attempts tr) with
  | Ok _ => True
  | Raise (LibraryError e) => caught_by (_fetcher self) e = false
  | Raise (FetcherException _) => False
  | Raise (RPCError _ _) => True
  end.
Proof.
  rewrite _request_after_fetch. cbn [fst].
  pose proof (_fetch_raises url (envelope data) log_exceptions attempts tr) as Hf.
  destruct (fst (_fetch net self url (envelope data) log_exceptions attempts tr))
    as [page|e]; [|exact Hf].
  pose proof (json_handling_raises page) as Hj.
  destruct (match loads page with
            | Ok result => getitem result "response"
            | Raise e => Raise e
            end) as [v|[e|e|msg sub]]; auto; contradiction.
Qed.

Lemma call_raises (op : Operation) (tr : Trace) :
  match fst (call net self op tr) with
  | Ok _ => True
  | Raise (LibraryError e) => caught_by (_fetcher self) e = false
  | Raise (FetcherException _) => False
  | Raise (RPCError _ _) => True
  end.
Proof.
  rewrite call_request. destruct (request_of op) as [[[url data] log_exceptions] attempts].
  cbn [fst].
  pose proof (_request_raises url data log_exceptions attempts tr) as Hr.
  destruct (fst (_request net self url data log_exceptions attempts tr)) as [v|e];
    [exact I | exact Hr].
Qed.

(** Every call of the fetcher made by [_fetch] carries the full URL, the
    body it was given and the connect timeout of the proxy. *)
Lemma _fetch_fetches (url_suffix : string) (body : Body) (log_exceptions : bool)
    (attempts : Z) (tr : Trace) :
  exists new,
    snd (_fetch net self url_suffix body log_exceptions attempts tr) = tr ++ new /\
    Forall (fun ev => is_fetch ev = true ->
              ev = EvFetch (full_url_of self url_suffix) body (_connect_timeout self)) new.
Proof.
  rewrite _fetch_by_count. cbn [snd]. eexists. split; [reflexivity|].
  apply attempts_left_fetches.
Qed.

End ProxyFacts.

(** * The specification, statement by statement *)

(** C1 (retry bound).  When the transport fails on every attempt,
    [_fetch] calls the fetcher exactly [attempts] times and then raises
    one RPCError; with the default of 3 attempts, [_fetch] and [_request]
    raise after exactly 3 calls; and every operation raises an RPCError
    after exactly 1 call for [ping] and [get_work] and exactly 3 calls for
    the others.  (The number of calls is a count: for [attempts <= 0] it
    is 0.) *)
Theorem retry_bound {lib : PyLib} (net : Network) (self : RemoteScheduler) :
  always_fails net self ->
  (forall url_suffix body log_exceptions attempts tr,
     exists sub new,
       _fetch net self url_suffix body log_exceptions attempts tr =
         (Raise (RPCError (rpc_error_message attempts (_url self)) sub), tr ++ new) /\
       fetch_count new = Z.to_nat attempts) /\
  (forall url_suffix body tr,
     exists msg sub new,
       _fetch net self url_suffix body default_log_exceptions default_attempts tr =
         (Raise (RPCError msg sub), tr ++ new) /\
       fetch_count new = 3%nat) /\
  (forall url data tr,
     exists msg sub new,
       _request net self url data default_log_exceptions default_attempts tr =
         (Raise (RPCError msg sub), tr ++ new) /\
       fetch_count new = 3%nat) /\
  (forall op tr,
     exists msg sub new,
       call net self op tr = (Raise (RPCError msg sub), tr ++ new) /\
       fetch_count new =
         match op with
         | Ping _ | GetWork _ _ _ => 1%nat
         | _ => 3%nat
         end).
Proof.
  intros Hfail.
  assert (Hfetch : forall url_suffix body log_exceptions attempts tr,
     exists sub new,
       _fetch net self url_suffix body log_exceptions attempts tr =
         (Raise (RPCError (rpc_error_message attempts (_url self)) sub), tr ++ new) /\
       fetch_count new = Z.to_nat attempts).
  { intros url_suffix body log_exceptions attempts tr.
    destruct (_fetch_exhausted net self url_suffix body log_exceptions attempts tr)
      as (new & Hrun & Hsk).
    { intros i _. apply Hfail. }
    eexists _, new. split; [exact Hrun|].
    rewrite <- fetch_count_skeleton, Hsk. apply fetch_count_spaced. }
  assert (Hrequest : forall url data log_exceptions attempts tr,
     exists sub new,
       _request net self url data log_exceptions attempts tr =
         (Raise (RPCError (rpc_error_message attempts (_url self)) sub), tr ++ new) /\
       fetch_count new = Z.to_nat attempts).
  { intros url data log_exceptions attempts tr.
    destruct (Hfetch url (envelope data) log_exceptions attempts tr)
      as (sub & new & Hrun & Hn).
    exists sub, new. rewrite _request_after_fetch, Hrun. split; [reflexivity|exact Hn]. }
  split; [exact Hfetch|]. split; [|split].
  - intros url_suffix body tr.
    destruct (Hfetch url_suffix body default_log_exceptions default_attempts tr)
      as (sub & new & Hrun & Hn). eauto.
  - intros url data tr.
    destruct (Hrequest url data default_log_exceptions default_attempts tr)
      as (sub & new & Hrun & Hn). eauto.
  - intros op tr. rewrite call_request.
    destruct op; cbn [request_of];
      match goal with
      | |- context [_request net self ?u ?d ?l ?a tr] =>
          destruct (Hrequest u d l a tr) as (sub & new & Hrun & Hn);
          rewrite Hrun; cbn [fst snd]; eexists _, sub, new;
          split; [reflexivity | exact Hn]
      end.
Qed.

(** The proxy over urllib against a network on which nothing answers. *)
Lemma retry_bound_witness :
  always_fails (lib := Sample.lib) Sample.dead_net Sample.urllib_proxy /\
  (exists msg sub new,
     call (lib := Sample.lib) Sample.dead_net Sample.urllib_proxy
       (Ping (PyStr "worker-1")) [] =
       (Raise (RPCError msg sub), [] ++ new) /\ fetch_count new = 1%nat) /\
  (exists msg sub new,
     call (lib := Sample.lib) Sample.dead_net Sample.urllib_proxy Graph [] =
       (Raise (RPCError msg sub), [] ++ new) /\ fetch_count new = 3%nat).
Proof.
  assert (H : always_fails (lib := Sample.lib) Sample.dead_net Sample.urllib_proxy).
  { intros n full_url body timeout. cbn. unfold URLLibFetcher_fetch, URLLibFetcher_try. cbn.
    destruct (Nat.even n); eexists; reflexivity. }
  split; [exact H|].
  destruct (retry_bound Sample.dead_net Sample.urllib_proxy H) as (_ & _ & _ & Hop).
  split; [exact (Hop (Ping (PyStr "worker-1")) []) | exact (Hop Graph [])].
Defined.

(** C2 (success short-circuits; only transport failures are retried).  Let
    attempt number [k] (counted from 0, within the attempts allowed) be the
    first whose fetch does not raise FetcherException, with result [r].
    Then [_fetch] makes exactly [k + 1] calls of the fetcher and ends with
    [r]: a page is returned at once, any other exception is passed on at
    once.  [_request] adds no call of the fetcher to those of [_fetch],
    whatever becomes of the page: an error of [json.loads] or of
    [result["response"]] is raised after the same [k + 1] calls. *)
Theorem success_short_circuits {lib : PyLib} (net : Network) (self : RemoteScheduler)
    (url_suffix : string) (body : Body) (log_exceptions : bool) (attempts : Z)
    (tr : Trace) (k : nat) :
  (k < Z.to_nat attempts)%nat ->
  (forall i, (i < k)%nat ->
     exists e, fetch net (_fetcher self) (fetch_count tr + i)
                 (full_url_of self url_suffix) body (_connect_timeout self)
               = Raise (FetcherException e)) ->
  (forall e, fetch net (_fetcher self) (fetch_count tr + k)
               (full_url_of self url_suffix) body (_connect_timeout self)
             <> Raise (FetcherException e)) ->
  exists new,
    fetch_count new = S k /\
    _fetch net self url_suffix body log_exceptions attempts tr =
      (fetch net (_fetcher self) (fetch_count tr + k)
         (full_url_of self url_suffix) body (_connect_timeout self),
       tr ++ new) /\
    (forall data, body = envelope data ->
       _request net self url_suffix data log_exceptions attempts tr =
         (match fetch net (_fetcher self) (fetch_count tr + k)
                  (full_url_of self url_suffix) body (_connect_timeout self) with
          | Ok page =>
              match loads page with
              | Ok result => getitem result "response"
              | Raise e => Raise e
              end
          | Raise e => Raise e
          end,
          tr ++ new)).
Proof.
  intros Hk Hfail Hstop.
  destruct (_fetch_stops net self url_suffix body log_exceptions attempts tr k
              Hk Hfail Hstop) as (new & Hrun & Hsk).
  exists new. split; [|split].
  - rewrite <- fetch_count_skeleton, Hsk. apply fetch_count_spaced.
  - exact Hrun.
  - intros data ->. rewrite _request_after_fetch, Hrun. reflexivity.
Qed.

(** Two refusals, then an answer: three calls and the page; and a page that
    is not JSON on the first attempt: one call and a ValueError. *)
Lemma success_short_circuits_witness :
  (exists new,
     fetch_count new = 3%nat /\
     _fetch (lib := Sample.lib) Sample.flaky_net Sample.urllib_proxy "/api/graph"
       (envelope (lib := Sample.lib) (PyDict [])) true 3 [] =
       (Ok Sample.stop_page, [] ++ new)) /\
  (exists new,
     fetch_count new = 1%nat /\
     _request (lib := Sample.lib) Sample.garbled_net Sample.requests_proxy "/api/graph"
       (PyDict []) true 3 [] =
       (Raise (LibraryError {| exc_class := ValueError; exc_args := "<html>" |}),
        [] ++ new)).
Proof.
  split.
  - destruct (success_short_circuits (lib := Sample.lib) Sample.flaky_net
                Sample.urllib_proxy "/api/graph"
                (envelope (lib := Sample.lib) (PyDict [])) true 3 [] 2)
      as (new & Hn & Hrun & _).
    + vm_compute. lia.
    + intros i Hi. destruct i as [|[|i]]; [eexists; reflexivity .. | lia].
    + intros e. vm_compute. discriminate.
    + exists new. split; [exact Hn | exact Hrun].
  - destruct (success_short_circuits (lib := Sample.lib) Sample.garbled_net
                Sample.requests_proxy "/api/graph"
                (envelope (lib := Sample.lib) (PyDict [])) true 3 [] 0)
      as (new & Hn & _ & Hreq).
    + vm_compute. lia.
    + intros i Hi. lia.
    + intros e. vm_compute. discriminate.
    + exists new. split; [exact Hn | exact (Hreq (PyDict []) eq_refl)].
Defined.

(** C3 (what is raised when the attempts are used up, and what never gets
    out).  When all of [attempts >= 1] attempts fail, [_fetch] raises an
    RPCError whose [sub_exception] is the exception that the transport
    library threw in the last attempt.  A fetcher wraps every exception of
    the classes it catches (URLError and socket.timeout for URLLibFetcher,
    RequestException for RequestsFetcher) in a FetcherException; and no
    [_fetch] and no operation ever raises an exception of those classes as
    itself, nor a FetcherException. *)
Theorem exhaustion_raises_rpc_error {lib : PyLib} (net : Network)
    (self : RemoteScheduler) :
  (forall url_suffix body log_exceptions attempts tr,
     1 <= attempts ->
     (forall i, (i < Z.to_nat attempts)%nat ->
        exists e, fetch net (_fetcher self) (fetch_count tr + i)
                    (full_url_of self url_suffix) body (_connect_timeout self)
                  = Raise (FetcherException e)) ->
     exists last new,
       transport net (_fetcher self) (fetch_count tr + (Z.to_nat attempts - 1))
         (full_url_of self url_suffix) body (_connect_timeout self) = Throws last /\
       _fetch net self url_suffix body log_exceptions attempts tr =
         (Raise (RPCError (rpc_error_message attempts (_url self)) (Some last)),
          tr ++ new)) /\
  (forall fetcher n full_url body timeout e,
     transport net fetcher n full_url body timeout = Throws e ->
     caught_by fetcher e = true ->
     fetch net fetcher n full_url body timeout = Raise (FetcherException e)) /\
  (forall args,
     caught_by URLLibFetcher {| exc_class := URLError; exc_args := args |} = true /\
     caught_by URLLibFetcher {| exc_class := socket_timeout; exc_args := args |} = true /\
     caught_by RequestsFetcher {| exc_class := RequestException; exc_args := args |} = true) /\
  (forall url_suffix body log_exceptions attempts tr e,
     (fst (_fetch net self url_suffix body log_exceptions attempts tr)
        = Raise (LibraryError e) -> caught_by (_fetcher self) e = false) /\
     fst (_fetch net self url_suffix body log_exceptions attempts tr)
        <> Raise (FetcherException e)) /\
  (forall op tr e,
     (fst (call net self op tr) = Raise (LibraryError e) ->
      caught_by (_fetcher self) e = false) /\
     fst (call net self op tr) <> Raise (FetcherException e)).
Proof.
  split; [|split; [|split; [|split]]].
  - intros url_suffix body log_exceptions attempts tr Hpos Hfail.
    destruct (_fetch_exhausted net self url_suffix body log_exceptions attempts tr Hfail)
      as (new & Hrun & _).
    destruct (Z.to_nat attempts) as [|m] eqn:Hm; [lia|].
    destruct (Hfail m ltac:(lia)) as [e He].
    exists e, new. replace (S m - 1)%nat with m by lia. split.
    + rewrite fetch_cases in He.
      destruct (transport net (_fetcher self) (fetch_count tr + m)
                  (full_url_of self url_suffix) body (_connect_timeout self))
        as [page|e']; [discriminate|].
      destruct (caught_by (_fetcher self) e'); [|discriminate].
      injection He as ->. reflexivity.
    + rewrite Hrun. unfold original_exc_at. rewrite He. reflexivity.
  - intros fetcher n full_url body timeout e Ht Hc.
    rewrite fetch_cases, Ht, Hc. reflexivity.
  - intros args. repeat split.
  - intros url_suffix body log_exceptions attempts tr e.
    pose proof (_fetch_raises net self url_suffix body log_exceptions attempts tr) as H.
    split; intros Heq; rewrite Heq in H; [exact H | contradiction].
  - intros op tr e. pose proof (call_raises net self op tr) as H.
    split; intros Heq; rewrite Heq in H; [exact H | contradiction].
Qed.

(** Three refusals over urllib: the RPCError carries the third one; and the
    timeout of the second transport call is wrapped, not passed on. *)
Lemma exhaustion_raises_rpc_error_witness :
  (exists last new,
     transport (lib := Sample.lib) Sample.dead_net URLLibFetcher 2
       "http://localhost:8082/api/graph" (envelope (lib := Sample.lib) (PyDict []))
       (PyFloat (10 # 1)) = Throws last /\
     _fetch (lib := Sample.lib) Sample.dead_net Sample.urllib_proxy "/api/graph"
       (envelope (lib := Sample.lib) (PyDict [])) true 3 [] =
       (Raise (RPCError
                 (rpc_error_message (lib := Sample.lib) 3 "http://localhost:8082")
                 (Some last)),
        [] ++ new)) /\
  fetch (lib := Sample.lib) Sample.dead_net URLLibFetcher 1
    "http://localhost:8082/api/graph" [] PyNone =
    Raise (FetcherException Sample.timed_out).
Proof.
  destruct (exhaustion_raises_rpc_error (lib := Sample.lib) Sample.dead_net
              Sample.urllib_proxy) as (Hlast & Hwrap & _ & _ & _).
  split.
  - apply (Hlast "/api/graph" (envelope (lib := Sample.lib) (PyDict [])) true 3 []).
    + lia.
    + intros i Hi. destruct i as [|[|[|i]]]; [eexists; reflexivity .. | ].
      exfalso. revert Hi. vm_compute. lia.
  - apply Hwrap; reflexivity.
Defined.

(** C6 (the wait).  [_wait] sleeps 30 seconds.  In every run of [_fetch]
    the calls of the fetcher and the sleeps form the pattern
    fetch, sleep 30, fetch, ..., sleep 30, fetch:
    nothing is slept before the first call or after the last, one sleep of
    30 seconds separates two consecutive calls, and every call that is
    followed by a sleep failed.  When all attempts fail there are
    [attempts] calls and [attempts - 1] sleeps (as a count: none for
    [attempts <= 1]), all before the RPCError is raised. *)
Theorem waits_between_attempts {lib : PyLib} (net : Network) (self : RemoteScheduler)
    (url_suffix : string) (body : Body) (log_exceptions : bool) (attempts : Z)
    (tr : Trace) :
  (forall tr0, _wait self tr0 = (Ok tt, tr0 ++ [EvSleep 30])) /\
  exists new k,
    snd (_fetch net self url_suffix body log_exceptions attempts tr) = tr ++ new /\
    (k <= Z.to_nat attempts)%nat /\
    skeleton new = spaced_fetches self (full_url_of self url_suffix) body false k /\
    fetch_count new = k /\
    sleep_count new = Nat.pred k /\
    (forall i, (S i < k)%nat ->
       exists e, fetch net (_fetcher self) (fetch_count tr + i)
                   (full_url_of self url_suffix) body (_connect_timeout self)
                 = Raise (FetcherException e)) /\
    ((forall i, (i < Z.to_nat attempts)%nat ->
        exists e, fetch net (_fetcher self) (fetch_count tr + i)
                    (full_url_of self url_suffix) body (_connect_timeout self)
                  = Raise (FetcherException e)) ->
     k = Z.to_nat attempts /\
     sleep_count new = Z.to_nat (attempts - 1) /\
     exists msg sub,
       _fetch net self url_suffix body log_exceptions attempts tr =
         (Raise (RPCError msg sub), tr ++ new)).
Proof.
  split; [reflexivity|].
  rewrite _fetch_by_count. cbn [snd].
  destruct (attempts_left_shape net self (full_url_of self url_suffix) body
              log_exceptions attempts (Z.to_nat attempts) (fetch_count tr) None)
    as (k & Hk & Hsk & Hfailed).
  cbn [exc_truthy] in Hsk.
  eexists _, k. split; [reflexivity|].
  assert (Hfc : fetch_count
                  (snd (attempts_left net self (full_url_of self url_suffix) body
                          log_exceptions attempts (Z.to_nat attempts) (fetch_count tr) None))
                = k).
  { rewrite <- fetch_count_skeleton, Hsk. apply fetch_count_spaced. }
  assert (Hsc : sleep_count
                  (snd (attempts_left net self (full_url_of self url_suffix) body
                          log_exceptions attempts (Z.to_nat attempts) (fetch_count tr) None))
                = Nat.pred k).
  { rewrite <- sleep_count_skeleton, Hsk. apply sleep_count_spaced. }
  repeat (split; [assumption|]).
  intros Hfail.
  destruct (attempts_left_exhausted net self (full_url_of self url_suffix) body
              log_exceptions attempts (Z.to_nat attempts) (fetch_count tr) None Hfail)
    as [Hr Hs].
  cbn [exc_truthy] in Hs.
  assert (Hkm : k = Z.to_nat attempts).
  { rewrite <- Hfc, <- fetch_count_skeleton, Hs. apply fetch_count_spaced. }
  split; [exact Hkm|]. split; [rewrite Hsc, Hkm; lia|].
  eexists _, _. rewrite Hr. reflexivity.
Qed.

(** Three refusals: three calls and two sleeps. *)
Lemma waits_between_attempts_witness :
  exists new,
    snd (_fetch (lib := Sample.lib) Sample.dead_net Sample.requests_proxy "/api/graph"
           (envelope (lib := Sample.lib) (PyDict [])) true 3 []) = [] ++ new /\
    fetch_count new = 3%nat /\ sleep_count new = 2%nat.
Proof.
  destruct (waits_between_attempts (lib := Sample.lib) Sample.dead_net
              Sample.requests_proxy "/api/graph"
              (envelope (lib := Sample.lib) (PyDict [])) true 3 [])
    as (_ & new & k & Hnew & _ & _ & Hfc & _ & _ & Hall).
  destruct Hall as (Hk & Hsc & _).
  { intros i _. eexists. reflexivity. }
  exists new. split; [exact Hnew|]. split; [rewrite Hfc, Hk; reflexivity | exact Hsc].
Defined.

(** C4, as stated, fails for the two operations without a [return]
    statement.  The scheduler answers [add_task] at once with the page
    [{"response": "stop"}]: the request carries the envelope, [_request]
    unwraps ["stop"], and [add_task] returns [None] to its caller. *)
Lemma add_task_returns_payload_counterexample :
  fst (_request (lib := Sample.lib) Sample.live_net Sample.urllib_proxy "/api/add_task"
         (snd (fst (fst (request_of Sample.an_add_task)))) true 3 [])
    = Ok (PyStr "stop") /\
  fst (call (lib := Sample.lib) Sample.live_net Sample.urllib_proxy Sample.an_add_task [])
    = Ok PyNone /\
  fst (call (lib := Sample.lib) Sample.live_net Sample.urllib_proxy Sample.an_add_task [])
    <> Ok (PyStr "stop").
Proof.
  repeat split; try (vm_compute; reflexivity).
  vm_compute. discriminate.
Qed.

(** C4, amended (the envelope).  Every call of the fetcher that [_request]
    makes for an argument object [data] carries the body
    [{'data': json.dumps(data)}] (and the full URL and the connect timeout);
    when [_fetch] returns a page that [json.loads] reads as a dict with the
    key ["response"], [_request] returns exactly the value under that key.
    Each operation sends the envelope of its own argument object.  The
    operations with a [return] statement return what [_request] returns;
    [ping] and [add_task] return [None] when [_request] returns, and raise
    what it raises. *)
Theorem request_envelope {lib : PyLib} (net : Network) (self : RemoteScheduler) :
  (forall url data log_exceptions attempts tr,
     exists new,
       snd (_request net self url data log_exceptions attempts tr) = tr ++ new /\
       Forall (fun ev => is_fetch ev = true ->
                 ev = EvFetch (full_url_of self url) [("data", json_dumps data)]
                        (_connect_timeout self)) new) /\
  (forall url data log_exceptions attempts tr page tr' items payload,
     _fetch net self url [("data", json_dumps data)] log_exceptions attempts tr
       = (Ok page, tr') ->
     json_loads page = Some (PyDict items) ->
     dict_get items "response" = Some payload ->
     _request net self url data log_exceptions attempts tr = (Ok payload, tr')) /\
  (forall op tr,
     exists new,
       snd (call net self op tr) = tr ++ new /\
       match request_of op with
       | (url, data, _, _) =>
           Forall (fun ev => is_fetch ev = true ->
                     ev = EvFetch (full_url_of self url) [("data", json_dumps data)]
                            (_connect_timeout self)) new
       end) /\
  (forall op tr,
     match request_of op with
     | (url, data, log_exceptions, attempts) =>
         match op with
         | Ping _ | AddTask _ _ _ _ _ _ _ _ _ _ _ _ _ =>
             call net self op tr =
               (match fst (_request net self url data log_exceptions attempts tr) with
                | Ok _ => Ok PyNone
                | Raise e => Raise e
                end,
                snd (_request net self url data log_exceptions attempts tr))
         | _ =>
             call net self op tr = _request net self url data log_exceptions attempts tr
         end
     end).
Proof.
  assert (Hreq : forall url data log_exceptions attempts tr,
     exists new,
       snd (_request net self url data log_exceptions attempts tr) = tr ++ new /\
       Forall (fun ev => is_fetch ev = true ->
                 ev = EvFetch (full_url_of self url) [("data", json_dumps data)]
                        (_connect_timeout self)) new).
  { intros url data log_exceptions attempts tr.
    rewrite _request_after_fetch. cbn [snd].
    apply (_fetch_fetches net self url (envelope data)). }
  split; [exact Hreq|]. split; [|split].
  - intros url data log_exceptions attempts tr page tr' items payload Hfetch Hloads Hget.
    rewrite _request_after_fetch. unfold envelope. rewrite Hfetch. cbn [fst snd].
    unfold loads. rewrite Hloads. cbn [getitem]. rewrite Hget. reflexivity.
  - intros op tr. rewrite call_request.
    destruct (request_of op) as [[[url data] log_exceptions] attempts]. cbn [snd].
    apply Hreq.
  - intros op tr. rewrite call_request.
    destruct op; cbn [request_of returns_payload];
      match goal with
      | |- context [_request net self ?u ?d ?l ?a tr] =>
          destruct (_request net self u d l a tr) as [[payload|e] tr']
      end; reflexivity.
Qed.

(** [get_work] against a scheduler that answers [{"response": "stop"}]. *)
Lemma request_envelope_witness :
  _request (lib := Sample.lib) Sample.live_net Sample.urllib_proxy "/api/get_work"
    (PyDict [("worker", PyStr "worker-1")]) false 1 [] =
    (Ok (PyStr "stop"),
     [EvFetch "http://localhost:8082/api/get_work"
        [("data", Sample.dumps (PyDict [("worker", PyStr "worker-1")]))]
        (PyFloat (10 # 1))]).
Proof.
  destruct (request_envelope (lib := Sample.lib) Sample.live_net Sample.urllib_proxy)
    as (_ & Hunwrap & _ & _).
  apply (Hunwrap "/api/get_work" (PyDict [("worker", PyStr "worker-1")]) false 1 []
           Sample.stop_page _ [("response", PyStr "stop")] (PyStr "stop")).
  - vm_compute. reflexivity.
  - vm_compute. reflexivity.
  - reflexivity.
Defined.

(** C5, as stated, fails.  The scheduler answers the ping of [worker-1] at
    once with the page [{"response": "stop"}]: the exchange succeeds,
    [_request] unwraps ["stop"], and [ping] returns [None]. *)
Lemma ping_returns_payload_counterexample :
  fetch (lib := Sample.lib) Sample.live_net (_fetcher Sample.urllib_proxy) 0
    (full_url_of (lib := Sample.lib) Sample.urllib_proxy "/api/ping")
    (envelope (lib := Sample.lib) (PyDict [("worker", PyStr "worker-1")]))
    (_connect_timeout Sample.urllib_proxy) = Ok Sample.stop_page /\
  json_loads (PyLib := Sample.lib) Sample.stop_page =
    Some (PyDict [("response", PyStr "stop")]) /\
  fst (_request (lib := Sample.lib) Sample.live_net Sample.urllib_proxy "/api/ping"
         (PyDict [("worker", PyStr "worker-1")]) true 1 []) = Ok (PyStr "stop") /\
  fst (ping (lib := Sample.lib) Sample.live_net Sample.urllib_proxy (PyStr "worker-1") [])
    = Ok PyNone /\
  fst (ping (lib := Sample.lib) Sample.live_net Sample.urllib_proxy (PyStr "worker-1") [])
    <> Ok (PyStr "stop").
Proof.
  repeat split; try (vm_compute; reflexivity).
  vm_compute. discriminate.
Qed.

(** C5, amended.  For every worker id, when the transport answers the one
    attempt and the answer is an envelope with the key ["response"], [ping]
    has made one request to [/api/ping] with the argument object
    [{'worker': worker}] and returns [None]: the payload is dropped. *)
Theorem ping_returns_none {lib : PyLib} (net : Network) (self : RemoteScheduler)
    (worker : PyVal) (tr : Trace) (page : string) (items : list (string * PyVal))
    (payload : PyVal) :
  fetch net (_fetcher self) (fetch_count tr) (full_url_of self "/api/ping")
    (envelope (PyDict [("worker", worker)])) (_connect_timeout self) = Ok page ->
  json_loads page = Some (PyDict items) ->
  dict_get items "response" = Some payload ->
  _request net self "/api/ping" (PyDict [("worker", worker)]) true 1 tr =
    (Ok payload,
     tr ++ [EvFetch (full_url_of self "/api/ping")
              (envelope (PyDict [("worker", worker)])) (_connect_timeout self)]) /\
  ping net self worker tr =
    (Ok PyNone,
     tr ++ [EvFetch (full_url_of self "/api/ping")
              (envelope (PyDict [("worker", worker)])) (_connect_timeout self)]).
Proof.
  intros Hfetch Hloads Hget.
  assert (Hreq : _request net self "/api/ping" (PyDict [("worker", worker)]) true 1 tr =
    (Ok payload,
     tr ++ [EvFetch (full_url_of self "/api/ping")
              (envelope (PyDict [("worker", worker)])) (_connect_timeout self)])).
  { rewrite _request_after_fetch, _fetch_by_count. cbn [fst snd].
    change (Z.to_nat 1) with 1%nat. cbn [attempts_left]. rewrite Hfetch. cbn [fst snd].
    unfold loads. rewrite Hloads. cbn [getitem]. rewrite Hget. reflexivity. }
  split; [exact Hreq|].
  unfold ping, bind, default_log_exceptions. rewrite Hreq. reflexivity.
Qed.

Lemma ping_returns_none_witness :
  ping (lib := Sample.lib) Sample.live_net Sample.requests_proxy (PyStr "worker-1") [] =
    (Ok PyNone,
     [] ++ [EvFetch "http://localhost:8082/api/ping"
              [("data", Sample.dumps (PyDict [("worker", PyStr "worker-1")]))]
              (PyFloat (10 # 1))]).
Proof.
  apply (ping_returns_none (lib := Sample.lib) Sample.live_net Sample.requests_proxy
           (PyStr "worker-1") [] Sample.stop_page [("response", PyStr "stop")]
           (PyStr "stop")); reflexivity.
Defined.

(** ** The constructor *)

Lemma append_cons (a : ascii) (s t : string) :
  String a s +:+ t = String a (s +:+ t).
Proof. reflexivity. Qed.

Lemma append_nil_l (t : string) : EmptyString +:+ t = t.
Proof. reflexivity. Qed.

Lemma append_nil_r (s : string) : s +:+ EmptyString = s.
Proof.
  induction s as [|a s IH]; [reflexivity|]. rewrite append_cons, IH. reflexivity.
Qed.

Lemma append_assoc (a b c : string) : (a +:+ b) +:+ c = a +:+ (b +:+ c).
Proof.
  induction a as [|x a IH]; [reflexivity|]. rewrite !append_cons, IH. reflexivity.
Qed.

Lemma rstrip_app_char (s chars : string) (c : ascii) :
  char_in c chars = true ->
  rstrip (s +:+ String c EmptyString) chars = rstrip s chars.
Proof.
  intros Hc. induction s as [|a s IH].
  - rewrite append_nil_l. cbn [rstrip]. rewrite Hc. reflexivity.
  - rewrite append_cons. cbn [rstrip]. rewrite IH. reflexivity.
Qed.

Lemma rstrip_slashes (n : nat) :
  forall u, rstrip (u +:+ slashes n) "/" = rstrip u "/".
Proof.
  induction n as [|n IH]; intros u; cbn [slashes].
  - rewrite append_nil_r. reflexivity.
  - change (String (ascii_of_nat 47) (slashes n))
      with (String (ascii_of_nat 47) EmptyString +:+ slashes n).
    rewrite <- append_assoc, IH. apply rstrip_app_char. reflexivity.
Qed.

Lemma init_guard_truthy (im : Imports) (url : string) : truthy (init_guard im url) = true.
Proof. reflexivity. Qed.

(** What the constructor amounts to, the assert being passed. *)
Lemma __init___unfold {lib : PyLib} (im : Imports) (config : gmap (string * string) string)
    (url : string) (connect_timeout : PyVal) :
  __init__ im config url connect_timeout =
  match (match connect_timeout with
         | PyNone => getfloat config "core" "rpc-connect-timeout" (PyFloat (10 # 1))
         | given => Ok given
         end) with
  | Raise e => Raise e
  | Ok connect_timeout' =>
      Ok {| _url := rstrip url "/";
            _connect_timeout := connect_timeout';
            _fetcher := if HAS_REQUESTS im then RequestsFetcher else URLLibFetcher |}
  end.
Proof. reflexivity. Qed.

(** C8 (the connect timeout).  Constructed without [connect_timeout] (that
    is, with [None]), the proxy takes the value of the configuration entry
    [core] / [rpc-connect-timeout], and 10.0 when there is no such entry;
    constructed with a [connect_timeout] other than [None], it keeps that
    value unchanged.  Every call of the fetcher made by [_fetch] is given
    the value kept by the constructor. *)
Theorem connect_timeout_resolution {lib : PyLib} (net : Network) (im : Imports)
    (config : gmap (string * string) string) (url : string) :
  default_connect_timeout = PyNone /\
  (config !! ("core", "rpc-connect-timeout") = None ->
   exists self,
     __init__ im config url default_connect_timeout = Ok self /\
     _connect_timeout self = PyFloat (10 # 1)) /\
  (forall raw q,
     config !! ("core", "rpc-connect-timeout") = Some raw ->
     float_of_str raw = Some q ->
     exists self,
       __init__ im config url default_connect_timeout = Ok self /\
       _connect_timeout self = PyFloat q) /\
  (forall given,
     given <> PyNone ->
     exists self,
       __init__ im config url given = Ok self /\
       _connect_timeout self = given) /\
  (forall self url_suffix body log_exceptions attempts tr,
     exists new,
       snd (_fetch net self url_suffix body log_exceptions attempts tr) = tr ++ new /\
       Forall (fun ev => is_fetch ev = true ->
                 exists full_url, ev = EvFetch full_url body (_connect_timeout self)) new).
Proof.
  split; [reflexivity|]. split; [|split; [|split]].
  - intros Hnone. rewrite __init___unfold. unfold default_connect_timeout, getfloat.
    rewrite Hnone. eexists. split; reflexivity.
  - intros raw q Hsome Hfloat. rewrite __init___unfold.
    unfold default_connect_timeout, getfloat. rewrite Hsome, Hfloat.
    eexists. split; reflexivity.
  - intros given Hgiven. rewrite __init___unfold.
    destruct given; try contradiction; eexists; split; reflexivity.
  - intros self url_suffix body log_exceptions attempts tr.
    destruct (_fetch_fetches net self url_suffix body log_exceptions attempts tr)
      as (new & Hnew & Hall).
    exists new. split; [exact Hnew|].
    eapply Forall_impl; [exact Hall|]. cbn. intros ev Hev Hfetch. eauto.
Qed.

(** No entry: 10.0.  An entry ["2.5"]: 2.5.  An explicit 3: 3. *)
Lemma connect_timeout_resolution_witness :
  (exists self,
     __init__ (lib := Sample.lib) Sample.plain_requests ∅ default_url
       default_connect_timeout = Ok self /\
     _connect_timeout self = PyFloat (10 # 1)) /\
  (exists self,
     __init__ (lib := Sample.lib) Sample.plain_requests
       (<[("core", "rpc-connect-timeout") := "2.5"]> ∅) default_url
       default_connect_timeout = Ok self /\
     _connect_timeout self = PyFloat (5 # 2)) /\
  (exists self,
     __init__ (lib := Sample.lib) Sample.plain_requests ∅ default_url (PyInt 3) = Ok self /\
     _connect_timeout self = PyInt 3).
Proof.
  split; [|split].
  - apply (connect_timeout_resolution (lib := Sample.lib) Sample.live_net
             Sample.plain_requests ∅ default_url).
    reflexivity.
  - apply (connect_timeout_resolution (lib := Sample.lib) Sample.live_net
             Sample.plain_requests (<[("core", "rpc-connect-timeout") := "2.5"]> ∅)
             default_url) with (raw := "2.5"); reflexivity.
  - apply (connect_timeout_resolution (lib := Sample.lib) Sample.live_net
             Sample.plain_requests ∅ default_url).
    discriminate.
Defined.

(** C9 (trailing slashes).  A base URL and the same URL followed by any
    number of slashes give the same proxy: the constructor returns the same
    object, so [_fetch] computes the same full URL for every suffix and
    behaves the same. *)
Theorem trailing_slashes_irrelevant {lib : PyLib} (net : Network) (im : Imports)
    (config : gmap (string * string) string) (u : string) (n : nat)
    (connect_timeout : PyVal) :
  rstrip (u +:+ slashes n) "/" = rstrip u "/" /\
  __init__ im config (u +:+ slashes n) connect_timeout =
    __init__ im config u connect_timeout /\
  (forall self1 self2,
     __init__ im config (u +:+ slashes n) connect_timeout = Ok self1 ->
     __init__ im config u connect_timeout = Ok self2 ->
     forall url_suffix,
       full_url_of self1 url_suffix = full_url_of self2 url_suffix /\
       forall body log_exceptions attempts tr,
         _fetch net self1 url_suffix body log_exceptions attempts tr =
         _fetch net self2 url_suffix body log_exceptions attempts tr).
Proof.
  assert (Hsame : __init__ im config (u +:+ slashes n) connect_timeout =
                  __init__ im config u connect_timeout).
  { rewrite !__init___unfold, rstrip_slashes. reflexivity. }
  split; [apply rstrip_slashes|]. split; [exact Hsame|].
  intros self1 self2 H1 H2. rewrite Hsame, H2 in H1. injection H1 as <-.
  intros url_suffix. split; reflexivity.
Qed.

(** [http://localhost:8082///] and [http://localhost:8082]. *)
Lemma trailing_slashes_irrelevant_witness :
  __init__ (lib := Sample.lib) Sample.no_requests ∅ "http://localhost:8082///" PyNone =
    Ok Sample.urllib_proxy /\
  __init__ (lib := Sample.lib) Sample.no_requests ∅ "http://localhost:8082" PyNone =
    Ok Sample.urllib_proxy /\
  full_url_of (lib := Sample.lib) Sample.urllib_proxy "/api/ping" =
    "http://localhost:8082/api/ping" /\
  __init__ (lib := Sample.lib) Sample.no_requests ∅
    ("http://localhost:8082" +:+ slashes 3) PyNone =
  __init__ (lib := Sample.lib) Sample.no_requests ∅ "http://localhost:8082" PyNone.
Proof.
  split; [reflexivity|]. split; [reflexivity|]. split; [reflexivity|].
  apply (trailing_slashes_irrelevant (lib := Sample.lib) Sample.live_net Sample.no_requests
           ∅ "http://localhost:8082" 3 PyNone).
Defined.

(** C10 (the guard that guards nothing).  The operand of the [assert] is a
    tuple of two items, which is true whatever the items are: the assert
    passes for every URL and every value of [HAS_UNIX_SOCKETS], also when
    the URL starts with [http+unix://] and [HAS_UNIX_SOCKETS] is false, where
    the first item of the tuple is [False].  The constructor never raises
    an AssertionError: the only error it can raise is the ValueError of a
    malformed configuration entry. *)
Theorem init_guard_never_rejects {lib : PyLib} (im : Imports) (url : string) :
  truthy (init_guard im url) = true /\
  assert_ (init_guard im url) = Ok tt /\
  (String.prefix "http+unix://" url = true ->
   HAS_UNIX_SOCKETS im = false ->
   init_guard im url =
     PyTuple [PyBool false;
              PyStr "You need to install requests-unixsocket for Unix socket support."]) /\
  (forall config connect_timeout,
     match __init__ im config url connect_timeout with
     | Ok _ => True
     | Raise (LibraryError e) => exc_class e = ValueError
     | Raise _ => False
     end).
Proof.
  split; [reflexivity|]. split; [reflexivity|]. split.
  - intros Hprefix Hunix. unfold init_guard. rewrite Hprefix, Hunix. reflexivity.
  - intros config connect_timeout. rewrite __init___unfold.
    destruct connect_timeout; try exact I.
    unfold getfloat. destruct (config !! ("core", "rpc-connect-timeout")) as [raw|];
      [|exact I].
    destruct (float_of_str raw); [exact I | reflexivity].
Qed.

(** A Unix-socket URL without Unix-socket support is accepted. *)
Lemma init_guard_never_rejects_witness :
  init_guard Sample.no_requests "http+unix://%2Fvar%2Frun%2Fluigi.sock/" =
    PyTuple [PyBool false;
             PyStr "You need to install requests-unixsocket for Unix socket support."] /\
  __init__ (lib := Sample.lib) Sample.no_requests ∅
    "http+unix://%2Fvar%2Frun%2Fluigi.sock/" PyNone =
    Ok {| _url := "http+unix://%2Fvar%2Frun%2Fluigi.sock";
          _connect_timeout := PyFloat (10 # 1);
          _fetcher := URLLibFetcher |}.
Proof.
  split.
  - apply (init_guard_never_rejects (lib := Sample.lib) Sample.no_requests
             "http+unix://%2Fvar%2Frun%2Fluigi.sock/"); reflexivity.
  - vm_compute. reflexivity.
Defined.

(** ** Task identity *)

Lemma length_append (a b : string) :
  String.length (a +:+ b) = (String.length a + String.length b)%nat.
Proof.
  induction a as [|x a IH]; [reflexivity|].
  rewrite append_cons. cbn [String.length]. rewrite IH. reflexivity.
Qed.

Lemma append_cancel_l (p x y : string) : p +:+ x = p +:+ y -> x = y.
Proof.
  induction p as [|c p IH]; [rewrite !append_nil_l; trivial|].
  rewrite !append_cons. intros [= H]. exact (IH H).
Qed.

Lemma append_cancel_r (s : string) : forall x y, x +:+ s = y +:+ s -> x = y.
Proof.
  induction x as [|c x IH]; intros [|d y] H.
  - reflexivity.
  - apply (f_equal String.length) in H. rewrite append_nil_l, length_append in H.
    cbn [String.length] in H. lia.
  - apply (f_equal String.length) in H. rewrite append_nil_l, length_append in H.
    cbn [String.length] in H. lia.
  - rewrite !append_cons in H. injection H as -> H. f_equal. exact (IH y H).
Qed.

Module TaskIdFacts.
Import TaskId.

Example test_insignificant_parameter_t1 :
  compute_id "InsignificantParameterTask"
    [ {| name := "foo"; significant := false; value := "x" |};
      {| name := "bar"; significant := true; value := "y" |} ]
  = "InsignificantParameterTask(bar=y)".
Proof. reflexivity. Qed.

Example test_insignificant_parameter_t2 :
  compute_id "InsignificantParameterTask"
    [ {| name := "foo"; significant := false; value := "u" |};
      {| name := "bar"; significant := true; value := "z" |} ]
  = "InsignificantParameterTask(bar=z)".
Proof. reflexivity. Qed.

Lemma with_value_same (p : Param) : with_value p (value p) = p.
Proof. destruct p; reflexivity. Qed.

Lemma filter_same_significant (p q : list Param) :
  Forall2 same_significant p q ->
  List.filter significant p = List.filter significant q.
Proof.
  induction 1 as [|a b p q (Hname & Hsig & Hval) _ IH]; [reflexivity|].
  cbn [List.filter]. rewrite <- Hsig. destruct (significant a) eqn:Ha; [|exact IH].
  f_equal; [|exact IH].
  destruct a as [an asg av], b as [bn bsg bv]; cbn in *.
  rewrite Hname, <- Hsig, (Hval eq_refl), Ha. reflexivity.
Qed.

Lemma filter_significant_split (pre post : list Param) (a : Param) (v : string) :
  significant a = true ->
  List.filter significant (pre ++ with_value a v :: post) =
  List.filter significant pre ++ with_value a v :: List.filter significant post.
Proof.
  intros Ha. rewrite List.filter_app. cbn [List.filter with_value significant].
  rewrite Ha. reflexivity.
Qed.

(** Inserting next to, and sorting around, a parameter whose value may
    change: the place it lands in depends on its name only. *)
Lemma insert_around (x a : Param) (s1 s2 : list Param) :
  exists t1 t2, forall v,
    insert x (s1 ++ with_value a v :: s2) = t1 ++ with_value a v :: t2.
Proof.
  induction s1 as [|y s1 (t1 & t2 & IH)]; cbn [app insert with_value name].
  - destruct (String.leb (name x) (name a)).
    + exists [x], s2. reflexivity.
    + exists [], (insert x s2). reflexivity.
  - destruct (String.leb (name x) (name y)).
    + exists (x :: y :: s1), s2. reflexivity.
    + exists (y :: t1), t2. intros v. rewrite (IH v). reflexivity.
Qed.

Lemma insert_it (a : Param) (s : list Param) :
  exists t1 t2, forall v, insert (with_value a v) s = t1 ++ with_value a v :: t2.
Proof.
  induction s as [|y s (t1 & t2 & IH)]; cbn [insert with_value name].
  - exists [], []. reflexivity.
  - destruct (String.leb (name a) (name y)).
    + exists [], (y :: s). reflexivity.
    + exists (y :: t1), t2. intros v. rewrite (IH v). reflexivity.
Qed.

Lemma sort_around (a : Param) (l1 l2 : list Param) :
  exists t1 t2, forall v,
    sort_by_name (l1 ++ with_value a v :: l2) = t1 ++ with_value a v :: t2.
Proof.
  induction l1 as [|x l1 (s1 & s2 & IH)]; cbn [app sort_by_name].
  - apply insert_it.
  - destruct (insert_around x a s1 s2) as (t1 & t2 & Hins).
    exists t1, t2. intros v. rewrite (IH v). apply Hins.
Qed.

(** The rendering of the sorted pairs is the value of that parameter between
    two strings that do not depend on it. *)
Lemma concat_around (a : Param) (t1 t2 : list Param) :
  exists before after, forall v,
    String.concat ", " (map render (t1 ++ with_value a v :: t2)) =
    before +:+ v +:+ after.
Proof.
  induction t1 as [|x t1 (before & after & IH)].
  - destruct t2 as [|y t2].
    + exists (name a +:+ "="), EmptyString. intros v. cbn [app map String.concat].
      unfold render. cbn [with_value name value].
      rewrite append_nil_r, append_assoc. reflexivity.
    + exists (name a +:+ "="), (", " +:+ String.concat ", " (map render (y :: t2))).
      intros v. cbn [app map String.concat]. unfold render at 1.
      cbn [with_value name value]. rewrite !append_assoc. reflexivity.
  - exists (render x +:+ ", " +:+ before), after. intros v.
    specialize (IH v). cbn [app map].
    destruct (map render (t1 ++ with_value a v :: t2)) as [|r rs] eqn:Hmap.
    + destruct t1; discriminate Hmap.
    + cbn [String.concat]. cbn [String.concat] in IH. rewrite IH.
      rewrite !append_assoc. reflexivity.
Qed.

Lemma compute_id_around (family : string) (pre post : list Param) (a : Param) :
  significant a = true ->
  exists before after, forall v,
    compute_id family (pre ++ with_value a v :: post) = before +:+ v +:+ after.
Proof.
  intros Ha.
  destruct (sort_around a (List.filter significant pre) (List.filter significant post))
    as (t1 & t2 & Hsort).
  destruct (concat_around a t1 t2) as (before & after & Hconcat).
  exists (family +:+ "(" +:+ before), (after +:+ ")"). intros v.
  unfold compute_id. rewrite (filter_significant_split pre post a v Ha), Hsort, Hconcat.
  rewrite !append_assoc. reflexivity.
Qed.

(** A limit of the rendering: values are joined as they are, so when two
    significant values change together, a separator that moves from one
    value to the other leaves the id unchanged. *)
Remark joint_change_can_keep_the_id :
  compute_id "T"
    [ {| name := "a"; significant := true; value := "x, b=y" |};
      {| name := "b"; significant := true; value := "z" |} ]
  = compute_id "T"
    [ {| name := "a"; significant := true; value := "x" |};
      {| name := "b"; significant := true; value := "y, b=z" |} ].
Proof. reflexivity. Qed.

End TaskIdFacts.

(** C7 (the id is a function of the family and the significant values).
    In the model of [compute_id]: the id is a function of its inputs (the
    same inputs give the same id); it depends on the parameter assignment
    only through its significant parameters, so that two assignments that
    differ only in parameters marked insignificant (in their values, or in
    their presence) have the same id; and changing the value of any
    significant parameter, whatever happens to the insignificant ones,
    changes the id. *)
Theorem task_id_determinism (family : string) :
  (forall params params',
     params = params' -> TaskId.compute_id family params = TaskId.compute_id family params') /\
  (forall params params',
     List.filter TaskId.significant params = List.filter TaskId.significant params' ->
     TaskId.compute_id family params = TaskId.compute_id family params') /\
  (forall params params',
     Forall2 TaskId.same_significant params params' ->
     TaskId.compute_id family params = TaskId.compute_id family params') /\
  (forall pre a post v params',
     TaskId.significant a = true ->
     v <> TaskId.value a ->
     Forall2 TaskId.same_significant (pre ++ TaskId.with_value a v :: post) params' ->
     TaskId.compute_id family params' <> TaskId.compute_id family (pre ++ a :: post)).
Proof.
  assert (Hfilter : forall params params',
     List.filter TaskId.significant params = List.filter TaskId.significant params' ->
     TaskId.compute_id family params = TaskId.compute_id family params').
  { intros params params' H. unfold TaskId.compute_id. rewrite H. reflexivity. }
  split; [intros params params' ->; reflexivity|].
  split; [exact Hfilter|].
  split.
  - intros params params' H. apply Hfilter, TaskIdFacts.filter_same_significant, H.
  - intros pre a post v params' Ha Hv Hsame Heq.
    rewrite <- (Hfilter _ _ (TaskIdFacts.filter_same_significant _ _ Hsame)) in Heq.
    destruct (TaskIdFacts.compute_id_around family pre post a Ha)
      as (before & after & Hid).
    rewrite <- (TaskIdFacts.with_value_same a) in Heq at 2.
    rewrite !Hid in Heq.
    apply append_cancel_l, append_cancel_r in Heq. exact (Hv Heq).
Qed.

(** The task of [test_insignificant_parameter]: [foo] does not count, [bar]
    does. *)
Lemma task_id_determinism_witness :
  TaskId.compute_id "InsignificantParameterTask"
    [ {| TaskId.name := "foo"; TaskId.significant := false; TaskId.value := "x" |};
      {| TaskId.name := "bar"; TaskId.significant := true; TaskId.value := "y" |} ]
  = TaskId.compute_id "InsignificantParameterTask"
    [ {| TaskId.name := "foo"; TaskId.significant := false; TaskId.value := "u" |};
      {| TaskId.name := "bar"; TaskId.significant := true; TaskId.value := "y" |} ] /\
  TaskId.compute_id "InsignificantParameterTask"
    [ {| TaskId.name := "foo"; TaskId.significant := false; TaskId.value := "u" |};
      {| TaskId.name := "bar"; TaskId.significant := true; TaskId.value := "z" |} ]
  <> TaskId.compute_id "InsignificantParameterTask"
    [ {| TaskId.name := "foo"; TaskId.significant := false; TaskId.value := "x" |};
      {| TaskId.name := "bar"; TaskId.significant := true; TaskId.value := "y" |} ].
Proof.
  destruct (task_id_determinism "InsignificantParameterTask") as (_ & _ & Hins & Hsig).
  split.
  - apply Hins. repeat constructor; cbn; discriminate.
  - apply (Hsig [ {| TaskId.name := "foo"; TaskId.significant := false;
                     TaskId.value := "x" |} ]
                {| TaskId.name := "bar"; TaskId.significant := true; TaskId.value := "y" |}
                [] "z").
    + reflexivity.
    + cbn. discriminate.
    + repeat constructor; cbn; discriminate.
Defined.

(** * Further properties of the proxy *)

(** ** More counting in traces *)

Lemma log_exception_count_app (tr1 tr2 : Trace) :
  log_exception_count (tr1 ++ tr2) =
  (log_exception_count tr1 + log_exception_count tr2)%nat.
Proof.
  unfold log_exception_count. rewrite List.filter_app, List.length_app. reflexivity.
Qed.

Lemma log_info_count_app (tr1 tr2 : Trace) :
  log_info_count (tr1 ++ tr2) = (log_info_count tr1 + log_info_count tr2)%nat.
Proof.
  unfold log_info_count. rewrite List.filter_app, List.length_app. reflexivity.
Qed.

Lemma fetch_never_RPCError {lib : PyLib} (net : Network) (fetcher : Fetcher) (n : nat)
    (full_url : string) (body : Body) (timeout : PyVal) (msg : string)
    (sub : option LibExc) :
  fetch net fetcher n full_url body timeout <> Raise (RPCError msg sub).
Proof.
  rewrite fetch_cases.
  destruct (transport net fetcher n full_url body timeout) as [page|e]; [discriminate|].
  destruct (caught_by fetcher e); discriminate.
Qed.

Section LoopRecords.

Context {lib : PyLib}.
Variable net : Network.
Variable self : RemoteScheduler.
Variable full_url : string.
Variable body : Body.
Variable log_exceptions : bool.
Variable attempts : Z.

Let run := attempts_left net self full_url body log_exceptions attempts.

(** One info record per sleep; one exception record per failed attempt when
    [log_exceptions] is set, none otherwise.  The attempts are all failed
    ones when the loop ends in the RPCError, and all but the last
    otherwise. *)
Lemma attempts_left_records (m : nat) :
  forall (n : nat) (last_exception : option LibExc),
    log_info_count (snd (run m n last_exception)) =
      sleep_count (snd (run m n last_exception)) /\
    (log_exceptions = false ->
     log_exception_count (snd (run m n last_exception)) = 0%nat) /\
    (log_exceptions = true ->
     (log_exception_count (snd (run m n last_exception)) +
        (if is_RPCError (fst (run m n last_exception)) then 0 else 1))%nat =
       fetch_count (snd (run m n last_exception))).
Proof.
  subst run.
  assert (Hnow : forall le,
            log_info_count (retry_events le ++ [fetch_event self full_url body]) =
              sleep_count (retry_events le ++ [fetch_event self full_url body]) /\
            log_exception_count (retry_events le ++ [fetch_event self full_url body]) = 0%nat /\
            fetch_count (retry_events le ++ [fetch_event self full_url body]) = 1%nat).
  { intros le. unfold retry_events. destruct (exc_truthy le); repeat split. }
  induction m as [|m IH]; intros n last_exception.
  - cbn. repeat split.
  - cbn [attempts_left].
    destruct (Hnow last_exception) as (Hi & He & Hf).
    remember (retry_events last_exception ++ [fetch_event self full_url body]) as now.
    destruct (fetch net (_fetcher self) n full_url body (_connect_timeout self))
      as [response|[e|e|msg sub]] eqn:Hout; cbn [fst snd is_RPCError].
    + split; [exact Hi|]. rewrite He, Hf. split; intros _; reflexivity.
    + split; [exact Hi|]. rewrite He, Hf. split; intros _; reflexivity.
    + specialize (IH (S n) (Some e)).
      destruct (attempts_left net self full_url body log_exceptions attempts m (S n) (Some e))
        as [r later]. cbn [fst snd] in *. destruct IH as (IHi & IHf & IHt).
      rewrite !log_info_count_app, !sleep_count_app, !log_exception_count_app,
        !fetch_count_app, Hi, He, Hf.
      unfold failure_events.
      destruct log_exceptions; cbn; (split; [lia|]); split; intros Hlog;
        try discriminate Hlog.
      * rewrite <- (IHt eq_refl). lia.
      * exact (IHf eq_refl).
    + exfalso. exact (fetch_never_RPCError _ _ _ _ _ _ _ _ Hout).
Qed.

(** What the records and the sleeps are. *)
Lemma attempts_left_events (m : nat) :
  forall (n : nat) (last_exception : option LibExc),
    Forall (fun ev =>
              match ev with
              | EvFetch _ _ _ => ev = fetch_event self full_url body
              | EvSleep seconds => seconds = 30
              | EvLogInfo msg => msg = "Retrying..."
              | EvLogException msg arg =>
                  msg = "Failed connecting to remote scheduler %r" /\ arg = _url self /\
                  log_exceptions = true
              end)
      (snd (run m n last_exception)).
Proof.
  subst run.
  assert (Hnow : forall le,
            Forall (fun ev =>
              match ev with
              | EvFetch _ _ _ => ev = fetch_event self full_url body
              | EvSleep seconds => seconds = 30
              | EvLogInfo msg => msg = "Retrying..."
              | EvLogException msg arg =>
                  msg = "Failed connecting to remote scheduler %r" /\ arg = _url self /\
                  log_exceptions = true
              end) (retry_events le ++ [fetch_event self full_url body])).
  { intros le. unfold retry_events. destruct (exc_truthy le); repeat constructor. }
  induction m as [|m IH]; intros n last_exception; [constructor|].
  cbn [attempts_left].
  destruct (fetch net (_fetcher self) n full_url body (_connect_timeout self))
    as [response|[e|e|msg sub]]; cbn [snd]; try apply Hnow.
  specialize (IH (S n) (Some e)).
  destruct (attempts_left net self full_url body log_exceptions attempts m (S n) (Some e))
    as [r later]. cbn [snd] in *.
  rewrite !Forall_app. split; [|split]; [apply Forall_app, Hnow | | exact IH].
  unfold failure_events. destruct log_exceptions; repeat constructor.
Qed.

(** While an attempt remains, the fetcher is called at least once. *)
Lemma attempts_left_calls (m : nat) (n : nat) (last_exception : option LibExc) :
  (1 <= fetch_count (snd (run (S m) n last_exception)))%nat.
Proof.
  subst run. cbn [attempts_left].
  destruct (fetch net (_fetcher self) n full_url body (_connect_timeout self))
    as [response|[e|e|msg sub]]; cbn [snd].
  3: destruct (attempts_left net self full_url body log_exceptions attempts m (S n) (Some e))
       as [r later]; cbn [snd].
  all: rewrite !fetch_count_app; cbn; lia.
Qed.

End LoopRecords.

(** ** No attempts allowed *)

(** X1.  With [attempts <= 0] the body of the loop is never entered:
    [_fetch] and [_request] call no fetcher, leave the trace as it is and
    raise the RPCError at once, with [sub_exception] equal to [None],
    whatever the network would have answered. *)
Theorem no_attempts_no_fetch {lib : PyLib} (net : Network) (self : RemoteScheduler)
    (url url_suffix : string) (body : Body) (data : PyVal) (log_exceptions : bool)
    (attempts : Z) (tr : Trace) :
  attempts <= 0 ->
  _fetch net self url_suffix body log_exceptions attempts tr =
    (Raise (RPCError (rpc_error_message attempts (_url self)) None), tr) /\
  _request net self url data log_exceptions attempts tr =
    (Raise (RPCError (rpc_error_message attempts (_url self)) None), tr).
Proof.
  intros Hle.
  assert (Hfetch : forall suffix b,
            _fetch net self suffix b log_exceptions attempts tr =
            (Raise (RPCError (rpc_error_message attempts (_url self)) None), tr)).
  { intros suffix b. rewrite _fetch_by_count.
    replace (Z.to_nat attempts) with 0%nat by lia.
    cbn [attempts_left fst snd]. rewrite app_nil_r. reflexivity. }
  split; [apply Hfetch|].
  rewrite _request_after_fetch, Hfetch. reflexivity.
Qed.

Lemma no_attempts_no_fetch_witness :
  _fetch (lib := Sample.lib) Sample.live_net Sample.urllib_proxy "/api/graph"
    (envelope (lib := Sample.lib) (PyDict [])) true 0 [] =
    (Raise (RPCError (rpc_error_message (lib := Sample.lib) 0 "http://localhost:8082") None),
     []) /\
  _request (lib := Sample.lib) Sample.live_net Sample.urllib_proxy "/api/graph"
    (PyDict []) true (-2) [] =
    (Raise (RPCError (rpc_error_message (lib := Sample.lib) (-2) "http://localhost:8082")
              None),
     []).
Proof.
  split.
  - apply (no_attempts_no_fetch (lib := Sample.lib) Sample.live_net Sample.urllib_proxy
             "/api/graph" "/api/graph" (envelope (lib := Sample.lib) (PyDict []))
             (PyDict []) true 0 []). lia.
  - apply (no_attempts_no_fetch (lib := Sample.lib) Sample.live_net Sample.urllib_proxy
             "/api/graph" "/api/graph" (envelope (lib := Sample.lib) (PyDict []))
             (PyDict []) true (-2) []). lia.
Defined.

(** ** Exceptions that the fetchers do not catch *)

(** X2.  An exception of a class outside the [except] clause of the fetcher
    in use ends [_fetch] as soon as it is thrown: it leaves the proxy as
    itself, not wrapped in an RPCError, and no further attempt is made, even
    when attempts remain.  URLLibFetcher does not catch [socket.error] or a
    RequestException; RequestsFetcher does not catch [socket.error],
    [socket.timeout] or URLError. *)
Theorem uncaught_exception_escapes {lib : PyLib} (net : Network)
    (self : RemoteScheduler) (url_suffix : string) (body : Body)
    (log_exceptions : bool) (attempts : Z) (tr : Trace) (k : nat) (e : LibExc) :
  (forall args,
     caught_by URLLibFetcher {| exc_class := socket_error; exc_args := args |} = false /\
     caught_by URLLibFetcher {| exc_class := RequestException; exc_args := args |} = false /\
     caught_by RequestsFetcher {| exc_class := socket_error; exc_args := args |} = false /\
     caught_by RequestsFetcher {| exc_class := socket_timeout; exc_args := args |} = false /\
     caught_by RequestsFetcher {| exc_class := URLError; exc_args := args |} = false) /\
  ((k < Z.to_nat attempts)%nat ->
   (forall i, (i < k)%nat ->
      exists e', fetch net (_fetcher self) (fetch_count tr + i)
                   (full_url_of self url_suffix) body (_connect_timeout self)
                 = Raise (FetcherException e')) ->
   transport net (_fetcher self) (fetch_count tr + k) (full_url_of self url_suffix)
     body (_connect_timeout self) = Throws e ->
   caught_by (_fetcher self) e = false ->
   exists new,
     _fetch net self url_suffix body log_exceptions attempts tr =
       (Raise (LibraryError e), tr ++ new) /\
     fetch_count new = S k /\
     sleep_count new = k).
Proof.
  split; [intros args; repeat split|].
  intros Hk Hfail Ht Hc.
  assert (Hout : fetch net (_fetcher self) (fetch_count tr + k)
                   (full_url_of self url_suffix) body (_connect_timeout self)
                 = Raise (LibraryError e)).
  { rewrite fetch_cases, Ht, Hc. reflexivity. }
  destruct (_fetch_stops net self url_suffix body log_exceptions attempts tr k Hk Hfail)
    as (new & Hrun & Hsk).
  { intros e'. rewrite Hout. discriminate. }
  exists new. rewrite Hrun, Hout. split; [reflexivity|]. split.
  - rewrite <- fetch_count_skeleton, Hsk. apply fetch_count_spaced.
  - rewrite <- sleep_count_skeleton, Hsk. apply sleep_count_spaced.
Qed.

(** A connection reset under urllib: one call, and the [socket.error] itself,
    although three attempts were allowed. *)
Lemma uncaught_exception_escapes_witness :
  exists new,
    _fetch (lib := Sample.lib) Sample.reset_net Sample.urllib_proxy "/api/graph"
      (envelope (lib := Sample.lib) (PyDict [])) true 3 [] =
      (Raise (LibraryError {| exc_class := socket_error;
                              exc_args := "Connection reset by peer" |}),
       [] ++ new) /\
    fetch_count new = 1%nat /\ sleep_count new = 0%nat.
Proof.
  apply (uncaught_exception_escapes (lib := Sample.lib) Sample.reset_net
           Sample.urllib_proxy "/api/graph" (envelope (lib := Sample.lib) (PyDict []))
           true 3 [] 0).
  - vm_compute. lia.
  - intros i Hi. lia.
  - reflexivity.
  - reflexivity.
Defined.

(** ** HTTP status under RequestsFetcher *)

Lemma RequestsFetcher_error_status (net : Network) (n : nat) (full_url : string)
    (body : Body) (timeout : PyVal) (resp : Response) :
  session_get net n full_url body timeout = Returns resp ->
  400 <= status_code resp < 600 ->
  RequestsFetcher_fetch net n full_url body timeout =
    Raise (FetcherException {| exc_class := requests_HTTPError;
                               exc_args := pretty (status_code resp) |}).
Proof.
  intros Hget Hstatus.
  unfold RequestsFetcher_fetch, RequestsFetcher_try, raise_for_status. rewrite Hget.
  replace (400 <=? status_code resp) with true by lia.
  replace (status_code resp <? 600) with true by lia.
  reflexivity.
Qed.

(** X3.  RequestsFetcher returns the text of a response exactly when
    [session.get] returns a response whose status is not an error status
    (400 to 599); a response with an error status becomes a
    FetcherException carrying the HTTPError of [raise_for_status], so it
    counts as a failed attempt. *)
Theorem requests_fetcher_status (net : Network) (n : nat)
    (full_url : string) (body : Body) (timeout : PyVal) :
  (forall page,
     RequestsFetcher_fetch net n full_url body timeout = Ok page <->
     exists resp,
       session_get net n full_url body timeout = Returns resp /\
       (status_code resp < 400 \/ 600 <= status_code resp) /\
       text resp = page) /\
  (forall resp,
     session_get net n full_url body timeout = Returns resp ->
     400 <= status_code resp < 600 ->
     RequestsFetcher_fetch net n full_url body timeout =
       Raise (FetcherException {| exc_class := requests_HTTPError;
                                  exc_args := pretty (status_code resp) |})).
Proof.
  unfold RequestsFetcher_fetch, RequestsFetcher_try, raise_for_status. split.
  - intros page. split.
    + destruct (session_get net n full_url body timeout) as [resp|e].
      * destruct (400 <=? status_code resp) eqn:Hlo;
          destruct (status_code resp <? 600) eqn:Hhi; cbn [andb];
          try discriminate; intros [= <-]; exists resp;
          (split; [reflexivity|]); (split; [lia|reflexivity]).
      * destruct (is_RequestException e); discriminate.
    + intros (resp & -> & Hstatus & <-).
      destruct (400 <=? status_code resp) eqn:Hlo;
        destruct (status_code resp <? 600) eqn:Hhi; cbn [andb]; try reflexivity.
      lia.
  - intros resp Hget Hstatus.
    exact (RequestsFetcher_error_status net n full_url body timeout resp Hget Hstatus).
Qed.

Lemma requests_fetcher_status_witness :
  RequestsFetcher_fetch Sample.unavailable_net 0
    "http://localhost:8082/api/graph" [] PyNone =
    Raise (FetcherException {| exc_class := requests_HTTPError; exc_args := "503" |}) /\
  exists resp,
    session_get Sample.live_net 0 "http://localhost:8082/api/graph" [] PyNone
      = Returns resp /\
    (status_code resp < 400 \/ 600 <= status_code resp) /\
    text resp = Sample.stop_page.
Proof.
  destruct (requests_fetcher_status Sample.unavailable_net 0
              "http://localhost:8082/api/graph" [] PyNone) as [_ Herr].
  destruct (requests_fetcher_status Sample.live_net 0
              "http://localhost:8082/api/graph" [] PyNone) as [Hok _].
  split.
  - apply (Herr {| status_code := 503; text := "Service Unavailable" |}).
    + reflexivity.
    + cbn. lia.
  - apply (Hok Sample.stop_page). reflexivity.
Defined.



(** ** What is logged *)

(** X5.  [_fetch] writes one ["Retrying..."] info record per sleep.  With
    [log_exceptions] it writes one exception record, naming [self._url],
    per failed attempt (all calls of the fetcher when the RPCError is
    raised, all but the last otherwise); without it, none.  So [get_work],
    which passes [log_exceptions=False], never writes an exception
    record. *)
Theorem retry_logging {lib : PyLib} (net : Network) (self : RemoteScheduler)
    (url_suffix : string) (body : Body) (log_exceptions : bool) (attempts : Z)
    (tr : Trace) :
  (exists new,
     snd (_fetch net self url_suffix body log_exceptions attempts tr) = tr ++ new /\
     log_info_count new = sleep_count new /\
     (log_exceptions = false -> log_exception_count new = 0%nat) /\
     (log_exceptions = true ->
      (log_exception_count new +
         (if is_RPCError (fst (_fetch net self url_suffix body log_exceptions attempts tr))
          then 0 else 1))%nat = fetch_count new) /\
     Forall (fun ev =>
               match ev with
               | EvLogInfo msg => msg = "Retrying..."
               | EvLogException msg arg =>
                   msg = "Failed connecting to remote scheduler %r" /\ arg = _url self
               | _ => True
               end) new) /\
  (forall worker host assistant,
     exists new,
       snd (get_work net self worker host assistant tr) = tr ++ new /\
       log_exception_count new = 0%nat).
Proof.
  split.
  - rewrite _fetch_by_count. cbn [fst snd].
    destruct (attempts_left_records net self (full_url_of self url_suffix) body
                log_exceptions attempts (Z.to_nat attempts) (fetch_count tr) None)
      as (Hinfo & Hoff & Hon).
    eexists. split; [reflexivity|]. repeat (split; [assumption|]).
    eapply Forall_impl;
      [apply (attempts_left_events net self (full_url_of self url_suffix) body
                log_exceptions attempts)|].
    intros [u b t|seconds|msg|msg arg]; cbn; intuition.
  - intros worker host assistant. unfold get_work.
    rewrite _request_after_fetch, _fetch_by_count. cbn [snd].
    eexists. split; [reflexivity|].
    apply (attempts_left_records net self). reflexivity.
Qed.

(** Three refusals with logging: three exception records and two info
    records; the same through [get_work]: no exception record. *)
Lemma retry_logging_witness :
  (exists new,
     snd (_fetch (lib := Sample.lib) Sample.dead_net Sample.urllib_proxy "/api/graph"
            (envelope (lib := Sample.lib) (PyDict [])) true 3 []) = [] ++ new /\
     log_exception_count new = 3%nat /\ log_info_count new = 2%nat) /\
  (exists new,
     snd (_fetch (lib := Sample.lib) Sample.dead_net Sample.urllib_proxy "/api/graph"
            (envelope (lib := Sample.lib) (PyDict [])) false 3 []) = [] ++ new /\
     log_exception_count new = 0%nat).
Proof.
  split.
  - destruct (retry_logging (lib := Sample.lib) Sample.dead_net Sample.urllib_proxy
                "/api/graph" (envelope (lib := Sample.lib) (PyDict [])) true 3 [])
      as [(new & Hnew & Hinfo & _ & Hon & _) _].
    exists new. split; [exact Hnew|].
    specialize (Hon eq_refl).
    assert (Heq : new = snd (_fetch (lib := Sample.lib) Sample.dead_net Sample.urllib_proxy
                               "/api/graph" (envelope (lib := Sample.lib) (PyDict []))
                               true 3 [])) by (rewrite Hnew; reflexivity).
    change (is_RPCError
              (fst (_fetch (lib := Sample.lib) Sample.dead_net Sample.urllib_proxy
                      "/api/graph" (envelope (lib := Sample.lib) (PyDict [])) true 3 [])))
      with true in Hon.
    rewrite Nat.add_0_r in Hon. split.
    + rewrite Hon, Heq. vm_compute. reflexivity.
    + rewrite Hinfo, Heq. vm_compute. reflexivity.
  - destruct (retry_logging (lib := Sample.lib) Sample.dead_net Sample.urllib_proxy
                "/api/graph" (envelope (lib := Sample.lib) (PyDict [])) false 3 [])
      as [(new & Hnew & _ & Hoff & _) _].
    exists new. split; [exact Hnew | exact (Hoff eq_refl)].
Defined.

(** ** Bounds on what an operation costs *)

(** X6.  Whatever the network does, an operation calls the fetcher at least
    once and at most 1 time ([ping], [get_work]) or 3 times (the others);
    it sleeps once less than it calls, 30 seconds each time.  So [ping] and
    [get_work] never sleep, and no operation sleeps more than twice. *)
Theorem operation_bounds {lib : PyLib} (net : Network) (self : RemoteScheduler)
    (op : Operation) (tr : Trace) :
  exists new,
    snd (call net self op tr) = tr ++ new /\
    (1 <= fetch_count new)%nat /\
    (fetch_count new <= match op with
                        | Ping _ | GetWork _ _ _ => 1
                        | _ => 3
                        end)%nat /\
    sleep_count new = Nat.pred (fetch_count new) /\
    (sleep_count new <= match op with
                        | Ping _ | GetWork _ _ _ => 0
                        | _ => 2
                        end)%nat /\
    Forall (fun ev => is_sleep ev = true -> ev = EvSleep 30) new.
Proof.
  assert (Hreq : forall url data log_exceptions attempts,
            1 <= attempts ->
            exists new,
              snd (_request net self url data log_exceptions attempts tr) = tr ++ new /\
              (1 <= fetch_count new <= Z.to_nat attempts)%nat /\
              sleep_count new = Nat.pred (fetch_count new) /\
              Forall (fun ev => is_sleep ev = true -> ev = EvSleep 30) new).
  { intros url data log_exceptions attempts Hpos.
    rewrite _request_after_fetch, _fetch_by_count. cbn [snd].
    destruct (attempts_left_shape net self (full_url_of self url) (envelope data)
                log_exceptions attempts (Z.to_nat attempts) (fetch_count tr) None)
      as (k & Hk & Hsk & _).
    cbn [exc_truthy] in Hsk.
    eexists. split; [reflexivity|].
    assert (Hfc : fetch_count
                    (snd (attempts_left net self (full_url_of self url) (envelope data)
                            log_exceptions attempts (Z.to_nat attempts) (fetch_count tr)
                            None)) = k).
    { rewrite <- fetch_count_skeleton, Hsk. apply fetch_count_spaced. }
    split; [|split].
    - split; [|rewrite Hfc; exact Hk].
      destruct (Z.to_nat attempts) as [|m] eqn:Hm; [lia|].
      apply attempts_left_calls.
    - rewrite Hfc, <- sleep_count_skeleton, Hsk. apply sleep_count_spaced.
    - eapply Forall_impl;
        [apply (attempts_left_events net self (full_url_of self url) (envelope data)
                  log_exceptions attempts)|].
      intros [u b t|seconds|msg|msg arg]; cbn; try discriminate.
      intros -> _. reflexivity. }
  rewrite call_request.
  destruct op; cbn [request_of];
    match goal with
    | |- context [_request net self ?u ?d ?l ?a tr] =>
        destruct (Hreq u d l a ltac:(lia)) as (new & Hnew & Hfc & Hsc & Hall);
        exists new; cbn [snd]; split; [exact Hnew|];
        change (Z.to_nat 1) with 1%nat in Hfc; change (Z.to_nat 3) with 3%nat in Hfc;
        repeat split; try assumption; lia
    end.
Qed.

(** ** Answers that are not envelopes *)

(** X7.  When [_fetch] has returned a page, [_request] raises a ValueError
    if the page is not JSON, a TypeError if it is JSON but not an object,
    and a KeyError if it is an object without the key ["response"]; in each
    case nothing is added to the trace of [_fetch], and the error is not an
    RPCError. *)
Theorem malformed_answer_errors {lib : PyLib} (net : Network) (self : RemoteScheduler)
    (url : string) (data : PyVal) (log_exceptions : bool) (attempts : Z)
    (tr tr' : Trace) (page : string) :
  _fetch net self url (envelope data) log_exceptions attempts tr = (Ok page, tr') ->
  (json_loads page = None ->
   _request net self url data log_exceptions attempts tr =
     (Raise (LibraryError {| exc_class := ValueError; exc_args := page |}), tr')) /\
  (forall result,
     json_loads page = Some result ->
     (forall items, result <> PyDict items) ->
     _request net self url data log_exceptions attempts tr =
       (Raise (LibraryError {| exc_class := TypeError; exc_args := "response" |}), tr')) /\
  (forall items,
     json_loads page = Some (PyDict items) ->
     dict_get items "response" = None ->
     _request net self url data log_exceptions attempts tr =
       (Raise (LibraryError {| exc_class := KeyError; exc_args := "response" |}), tr')).
Proof.
  intros Hfetch. rewrite _request_after_fetch, Hfetch. cbn [fst snd]. unfold loads.
  split; [|split].
  - intros ->. reflexivity.
  - intros result -> Hnot.
    destruct result; try reflexivity. exfalso. exact (Hnot items eq_refl).
  - intros items -> Hget. cbn [getitem]. rewrite Hget. reflexivity.
Qed.

(** A page of HTML, and an object without ["response"]. *)
Lemma malformed_answer_errors_witness :
  _request (lib := Sample.lib) Sample.garbled_net Sample.urllib_proxy "/api/graph"
    (PyDict []) true 3 [] =
    (Raise (LibraryError {| exc_class := ValueError; exc_args := "<html>" |}),
     [EvFetch "http://localhost:8082/api/graph" [("data", "{}")] (PyFloat (10 # 1))]) /\
  _request (lib := Sample.lib_without_response) Sample.live_net Sample.urllib_proxy
    "/api/graph" (PyDict []) true 3 [] =
    (Raise (LibraryError {| exc_class := KeyError; exc_args := "response" |}),
     [EvFetch "http://localhost:8082/api/graph" [("data", "{}")] (PyFloat (10 # 1))]).
Proof.
  split.
  - apply (malformed_answer_errors (lib := Sample.lib) Sample.garbled_net
             Sample.urllib_proxy "/api/graph" (PyDict []) true 3 [] _ "<html>").
    + vm_compute. reflexivity.
    + reflexivity.
  - apply (malformed_answer_errors (lib := Sample.lib_without_response) Sample.live_net
             Sample.urllib_proxy "/api/graph" (PyDict []) true 3 [] _ Sample.stop_page)
      with (items := [("error", PyStr "unknown")]).
    + vm_compute. reflexivity.
    + reflexivity.
    + reflexivity.
Defined.

(** ** What the constructor stores *)

Lemma rstrip_decompose (s : string) :
  exists n, s = rstrip s "/" +:+ slashes n.
Proof.
  induction s as [|c rest [n IH]]; [exists 0%nat; reflexivity|].
  cbn [rstrip]. destruct (rstrip rest "/") as [|a kept] eqn:Hkept.
  - rewrite append_nil_l in IH. cbn [char_in].
    destruct (Ascii.eqb c _) eqn:Hc.
    + apply Ascii.eqb_eq in Hc. subst c. exists (S n).
      rewrite append_nil_l, IH. reflexivity.
    + exists n. rewrite append_cons, append_nil_l, IH. reflexivity.
  - exists n. rewrite append_cons. f_equal. exact IH.
Qed.

Lemma append_slash_not_empty (t : string) :
  t +:+ String (ascii_of_nat 47) EmptyString <> EmptyString.
Proof. destruct t; [rewrite append_nil_l | rewrite append_cons]; discriminate. Qed.

Lemma rstrip_no_trailing_slash (s : string) :
  forall t, rstrip s "/" <> t +:+ String (ascii_of_nat 47) EmptyString.
Proof.
  induction s as [|c rest IH]; intros t H; cbn [rstrip] in H.
  - symmetry in H. exact (append_slash_not_empty t H).
  - destruct (rstrip rest "/") as [|a kept] eqn:Hkept.
    + cbn [char_in] in H. destruct (Ascii.eqb c _) eqn:Hc.
      * symmetry in H. exact (append_slash_not_empty t H).
      * destruct t as [|d t'].
        -- rewrite append_nil_l in H. injection H as ->.
           rewrite Ascii.eqb_refl in Hc. discriminate.
        -- rewrite append_cons in H. injection H as _ H.
           symmetry in H. exact (append_slash_not_empty t' H).
    + destruct t as [|d t'].
      * rewrite append_nil_l in H. discriminate.
      * rewrite append_cons in H. injection H as _ H. exact (IH t' H).
Qed.

(** X8.  The URL that a constructed proxy stores is the given URL without
    its trailing slashes: the given URL is the stored one followed by a run
    of slashes, the stored one does not end in a slash, and constructing
    again from the stored URL gives the same proxy. *)
Theorem stored_url_normal_form {lib : PyLib} (im : Imports)
    (config : gmap (string * string) string) (url : string) (connect_timeout : PyVal)
    (self : RemoteScheduler) :
  __init__ im config url connect_timeout = Ok self ->
  (exists n, url = _url self +:+ slashes n) /\
  (forall t, _url self <> t +:+ "/") /\
  __init__ im config (_url self) connect_timeout = Ok self.
Proof.
  rewrite !__init___unfold.
  destruct (match connect_timeout with
            | PyNone => getfloat config "core" "rpc-connect-timeout" (PyFloat (10 # 1))
            | given => Ok given
            end) as [kept|e]; [|discriminate].
  intros [= <-]. cbn [_url]. split; [|split].
  - apply rstrip_decompose.
  - apply rstrip_no_trailing_slash.
  - destruct (rstrip_decompose url) as [n Hn].
    rewrite Hn at 2. rewrite rstrip_slashes. reflexivity.
Qed.

Lemma stored_url_normal_form_witness :
  (exists n, default_url = "http://localhost:8082" +:+ slashes n) /\
  __init__ (lib := Sample.lib) Sample.no_requests ∅ "http://localhost:8082" PyNone =
    Ok Sample.urllib_proxy.
Proof.
  assert (Hinit : __init__ (lib := Sample.lib) Sample.no_requests ∅ default_url PyNone =
                  Ok Sample.urllib_proxy) by reflexivity.
  destruct (stored_url_normal_form (lib := Sample.lib) Sample.no_requests ∅ default_url
              PyNone Sample.urllib_proxy Hinit) as (Hn & _ & Hagain).
  split; [exact Hn | exact Hagain].
Defined.

(** X9.  The flags of the module and the fetcher of a proxy:
    [HAS_UNIX_SOCKETS] implies [HAS_REQUESTS]; a constructed proxy uses
    RequestsFetcher as soon as one of the two imports of [requests]
    succeeded, and URLLibFetcher exactly when both failed. *)
Theorem fetcher_selection {lib : PyLib} (im : Imports)
    (config : gmap (string * string) string) (url : string) (connect_timeout : PyVal)
    (self : RemoteScheduler) :
  __init__ im config url connect_timeout = Ok self ->
  (HAS_UNIX_SOCKETS im = true -> HAS_REQUESTS im = true) /\
  (_fetcher self = RequestsFetcher <->
   can_import_requests_unixsockets im = true \/ can_import_requests im = true) /\
  (_fetcher self = URLLibFetcher <->
   can_import_requests_unixsockets im = false /\ can_import_requests im = false).
Proof.
  rewrite __init___unfold.
  destruct (match connect_timeout with
            | PyNone => getfloat config "core" "rpc-connect-timeout" (PyFloat (10 # 1))
            | given => Ok given
            end) as [kept|e]; [|discriminate].
  intros [= <-]. cbn [_fetcher]. unfold HAS_UNIX_SOCKETS, HAS_REQUESTS.
  destruct (can_import_requests_unixsockets im), (can_import_requests im);
    intuition (discriminate || congruence).
Qed.

Lemma fetcher_selection_witness :
  _fetcher Sample.urllib_proxy = URLLibFetcher <->
  can_import_requests_unixsockets Sample.no_requests = false /\
  can_import_requests Sample.no_requests = false.
Proof.
  assert (Hinit : __init__ (lib := Sample.lib) Sample.no_requests ∅
                    "http://localhost:8082" PyNone = Ok Sample.urllib_proxy)
    by reflexivity.
  apply (fetcher_selection (lib := Sample.lib) Sample.no_requests ∅
           "http://localhost:8082" PyNone Sample.urllib_proxy Hinit).
Defined.

(** ** An answer at the first attempt *)

(** X10.  When the first transport call of an operation returns a page, the
    operation adds exactly one event to the trace, the one request with its
    endpoint and the envelope of its argument object: it neither sleeps nor
    logs, whatever the page turns out to be. *)
Theorem answered_at_once {lib : PyLib} (net : Network) (self : RemoteScheduler)
    (op : Operation) (tr : Trace) (page : string) :
  match request_of op with
  | (url, data, _, _) =>
      fetch net (_fetcher self) (fetch_count tr) (full_url_of self url)
        (envelope data) (_connect_timeout self) = Ok page ->
      snd (call net self op tr) =
        tr ++ [EvFetch (full_url_of self url) [("data", json_dumps data)]
                 (_connect_timeout self)]
  end.
Proof.
  assert (Hreq : forall url data log_exceptions attempts,
            1 <= attempts ->
            fetch net (_fetcher self) (fetch_count tr) (full_url_of self url)
              (envelope data) (_connect_timeout self) = Ok page ->
            snd (_request net self url data log_exceptions attempts tr) =
              tr ++ [EvFetch (full_url_of self url) [("data", json_dumps data)]
                       (_connect_timeout self)]).
  { intros url data log_exceptions attempts Hpos Hfetch.
    rewrite _request_after_fetch, _fetch_by_count. cbn [snd].
    destruct (Z.to_nat attempts) as [|m] eqn:Hm; [lia|].
    cbn [attempts_left]. rewrite Hfetch. reflexivity. }
  rewrite call_request.
  destruct op; cbn [request_of snd]; intros Hfetch; apply Hreq; (lia || exact Hfetch).
Qed.

Lemma answered_at_once_witness :
  snd (call (lib := Sample.lib) Sample.live_net Sample.requests_proxy
         (TaskSearch (PyStr "Foo")) []) =
    [] ++ [EvFetch "http://localhost:8082/api/task_search"
             [("data", Sample.dumps (PyDict [("task_str", PyStr "Foo")]))]
             (PyFloat (10 # 1))].
Proof.
  apply (answered_at_once (lib := Sample.lib) Sample.live_net Sample.requests_proxy
           (TaskSearch (PyStr "Foo")) [] Sample.stop_page).
  reflexivity.
Defined.
